(** * check_pve2: evaluation rules of the Proxmox VE check plugin

    A shallow embedding of [check_pve2.py] (class [CheckPVE]): the unit
    normalizers, the threshold validation of [parse_args], the
    per-subcommand evaluators and the final aggregation in
    [check_exitcodes], together with the properties the plugin's
    description states about them.

    Conventions of the embedding.
    - Python [int] is [Z]; Python [str] is [string]; a list of findings
      is a [list string] in append order.
    - A Python [float] is a binary64 number and is modelled by the
      rational number it denotes ([Q], kept in lowest terms by [Qred]).
      [Fl.fl] rounds a rational to the nearest binary64 number, ties
      to the even mantissa, and every product and quotient of floats
      is rounded by it as the hardware does.  A float that comes out
      of [round(_, 1)] or [round(_, 2)] is carried as the decimal
      number it prints as; [Fl.fl] gives back its binary64 value where
      the program computes or compares with it.  Overflow to infinity
      (from [2^1024] on) is outside the model.  Where the total of a
      store is 0, the product [used * 100] is taken exactly, as it is
      in binary64 for counts below [2^46].
    - [print] and [sys.exit] are modelled by the value of type
      [outcome] a run ends with: the lines written to standard output,
      in order, and the exit status. *)

From Stdlib Require Import ZArith QArith Qround Qreduction Qpower.
From Stdlib Require Import String Ascii List Bool Lia.
From Stdlib Require Import Lqa.
Import ListNotations.

Local Open Scope string_scope.
Local Open Scope Z_scope.

(** ** Binary64 arithmetic *)

Module Fl.

(** The integer nearest to [x], a tie going to the even one. *)
Definition nearest_even (x : Q) : Z :=
  let f := Qfloor x in
  match Qcompare (x - inject_Z f) (1 # 2) with
  | Lt => f
  | Gt => f + 1
  | Eq => if Z.even f then f else f + 1
  end.

Definition pow2 (e : Z) : Q := Qpower 2 e.

(** The exponent [k] with [2^k <= q < 2^(k+1)], for a positive [q]. *)
Definition ilog2 (q : Q) : Z :=
  let k := Z.log2 (Qnum q) - Z.log2 (Zpos (Qden q)) in
  if Qle_bool (pow2 k) q then k else k - 1.

(** The exponent of the last place: 53 significant bits, and no finer
    than [2^-1074]. *)
Definition scale (q : Q) : Z := Z.max (-1074) (ilog2 q - 52).

Definition fl_pos (q : Q) : Q :=
  let e := scale q in
  Qred (inject_Z (nearest_even (q / pow2 e)) * pow2 e).

(** The binary64 number nearest to [q]. *)
Definition fl (q : Q) : Q :=
  match Qcompare q 0 with
  | Eq => 0
  | Gt => fl_pos q
  | Lt => Qred (- fl_pos (- q))
  end.

(** [x * y] and [x / y] on floats. *)
Definition mul (x y : Q) : Q := fl (x * y).
Definition div (x y : Q) : Q := fl (x / y).

(** An [int] as an operand of a float operation. *)
Definition of_int (n : Z) : Q := fl (inject_Z n).

End Fl.

(** ** Python primitives used by the plugin *)

Module Py.

(** *** [str(n)] for an [int] *)

Definition digit_char (d : Z) : ascii :=
  ascii_of_nat (48 + Z.to_nat d).

(** Decimal digits of a non-negative number, most significant first,
    pushed in front of [acc].  [fuel] bounds the number of digits. *)
Fixpoint digits_fuel (fuel : nat) (n : Z) (acc : string) : string :=
  match fuel with
  | O => acc
  | S f =>
      let acc' := String (digit_char (n mod 10)) acc in
      if n <? 10 then acc' else digits_fuel f (n / 10) acc'
  end.

Definition str_nonneg (n : Z) : string :=
  digits_fuel (S (Z.to_nat (Z.log2 n))) n "".

Definition str_int (n : Z) : string :=
  if n <? 0 then "-" ++ str_nonneg (- n) else str_nonneg n.

(** *** [needle in hay] on strings, also [re.search] of a literal *)

Fixpoint contains (needle hay : string) : bool :=
  String.prefix needle hay ||
  match hay with
  | EmptyString => false
  | String _ rest => contains needle rest
  end.

(** *** [any(needle in x for x in xs)] *)

Definition any_contains (needle : string) (xs : list string) : bool :=
  existsb (contains needle) xs.

(** *** [s.strip()]: leading and trailing white space removed.
    The white space of ASCII as Python's [str] sees it: the characters
    9 to 13, 28 to 31 and the blank. *)

Definition is_space (c : ascii) : bool :=
  let n := nat_of_ascii c in
  ((9 <=? n) && (n <=? 13) || (28 <=? n) && (n <=? 32))%nat.

Fixpoint lstrip (s : string) : string :=
  match s with
  | EmptyString => EmptyString
  | String c rest => if is_space c then lstrip rest else s
  end.

Fixpoint rstrip (s : string) : string :=
  match s with
  | EmptyString => EmptyString
  | String c rest =>
      match rstrip rest with
      | EmptyString => if is_space c then EmptyString else String c EmptyString
      | r => String c r
      end
  end.

Definition strip (s : string) : string := rstrip (lstrip s).

(** *** [round(x, ndigits)]: to the nearest multiple of [10^-ndigits],
    a tie going to the even neighbour. *)

Definition round (x : Q) (ndigits : nat) : Q :=
  let scale := 10 ^ Z.of_nat ndigits in
  Qred (Qmake (Fl.nearest_even (x * inject_Z scale)) (Z.to_pos scale)).

(** [a / b] on two [int]s (true division): the float nearest to the
    quotient.  The caller handles [b = 0], where Python raises
    [ZeroDivisionError]. *)
Definition int_div (a b : Z) : Q := Fl.fl (inject_Z a / inject_Z b).

(** *** [str(x)] for a float with at most two decimals
    (every float the plugin prints is the result of [round(_, 1)] or
    [round(_, 2)]): the integer part, a point, and the decimals
    without a trailing zero but at least one of them.  Python switches
    to exponent notation from [1e16] on, which no byte count divided by
    [1024^2] reaches; a negative zero does not arise from the
    non-negative readings of the API. *)

Definition str_float (x : Q) : string :=
  let h := Qfloor (x * 100) in
  let a := Z.abs h in
  let frac := a mod 100 in
  (if h <? 0 then "-" else "") ++
  str_int (a / 100) ++ "." ++
  String (digit_char (frac / 10))
    (if frac mod 10 =? 0 then "" else String (digit_char (frac mod 10)) "").

(** Comparison of an [int] threshold with a float. *)
Definition int_le_float (t : Z) (x : Q) : bool := Qle_bool (inject_Z t) x.
Definition float_le_int (x : Q) (t : Z) : bool := Qle_bool x (inject_Z t).
Definition float_lt_int (x : Q) (t : Z) : bool := negb (Qle_bool (inject_Z t) x).

(** *** [s.split(sep)] for a separator of one character: the pieces
    between the separators, the empty ones included; never the empty
    list. *)

Fixpoint split (sep : ascii) (s : string) : list string :=
  match s with
  | EmptyString => [EmptyString]
  | String c rest =>
      if Ascii.eqb c sep then EmptyString :: split sep rest
      else match split sep rest with
           | piece :: pieces => String c piece :: pieces
           | [] => [String c EmptyString]
           end
  end.

(** *** [repr(s)] for a [str]: single quotes, unless the string holds
    a single quote and no double quote; the quote in use and the
    backslash are escaped, tab, newline and return are written with
    their letter, the other control characters and DEL as [\xNN].
    Characters beyond ASCII are kept, as Python keeps printable ones. *)

Definition hex_char (d : nat) : ascii :=
  if (d <? 10)%nat then ascii_of_nat (48 + d) else ascii_of_nat (87 + d).

Fixpoint has_char (c : ascii) (s : string) : bool :=
  match s with
  | EmptyString => false
  | String d rest => Ascii.eqb c d || has_char c rest
  end.

Fixpoint repr_body (quote : ascii) (s : string) : string :=
  match s with
  | EmptyString => EmptyString
  | String c rest =>
      let n := nat_of_ascii c in
      (if Ascii.eqb c quote || Ascii.eqb c "\"%char
       then String "\"%char (String c EmptyString)
       else if (n =? 9)%nat then "\t"
       else if (n =? 10)%nat then "\n"
       else if (n =? 13)%nat then "\r"
       else if (n <? 32)%nat || (n =? 127)%nat
       then String "\"%char (String "x"%char
              (String (hex_char (n / 16)) (String (hex_char (n mod 16)) EmptyString)))
       else String c EmptyString)
      ++ repr_body quote rest
  end.

Definition repr (s : string) : string :=
  let quote :=
    if has_char "'"%char s && negb (has_char (ascii_of_nat 34) s)
    then ascii_of_nat 34 else "'"%char in
  String quote (repr_body quote s ++ String quote EmptyString).

(** [str(t)] for a tuple of strings: a lone element keeps its comma. *)
Definition str_tuple (items : list string) : string :=
  match items with
  | [x] => "(" ++ repr x ++ ",)"
  | _ => "(" ++ String.concat ", " (map repr items) ++ ")"
  end.

End Py.

(** A number of a JSON payload: an integer literal is read as an
    [int], a literal with a fraction or an exponent as the float
    nearest to it. *)
Inductive json_number := JInt (n : Z) | JFloat (literal : Q).

(** A Python number as the plugin prints and compares it: an [int], or
    a float that came out of [round], carried as its decimal. *)
Inductive py_number := PyInt (n : Z) | PyFloat (decimal : Q).

Definition str_number (x : py_number) : string :=
  match x with
  | PyInt n => Py.str_int n
  | PyFloat d => Py.str_float d
  end.

Definition number_value (x : py_number) : Q :=
  match x with
  | PyInt n => inject_Z n
  | PyFloat d => Fl.fl d
  end.

(** ** The unit normalizers *)

(** [CheckPVE.check_UOM]: the three tests are on the digit count taken
    before any of them runs, the number itself is overwritten. *)
Definition check_UOM (mynumber : Z) : Q * string :=
  let mynumber_lenght := Z.of_nat (String.length (Py.str_int mynumber)) in
  let st0 : Q * string := (inject_Z mynumber, "GB") in
  let st1 :=
    if 13 <=? mynumber_lenght
    then (Py.round (Py.int_div mynumber (1024 ^ 4)) 2, "TB") else st0 in
  let st2 :=
    if (10 <=? mynumber_lenght) && (mynumber_lenght <=? 12)
    then (Py.round (Py.int_div mynumber (1024 ^ 3)) 2, "GB") else st1 in
  let st3 :=
    if mynumber_lenght <? 10
    then (Py.round (Py.int_div mynumber (1024 ^ 2)) 2, "MB") else st2 in
  st3.

(** [CheckPVE.get_common_unit]. *)
Definition get_common_unit (used_number total_number : Z) : Q * Q * string :=
  let total_number_lenght := Z.of_nat (String.length (Py.str_int total_number)) in
  let st0 : Q * Q * string := (inject_Z used_number, inject_Z total_number, "GB") in
  let st1 :=
    if 13 <=? total_number_lenght
    then (Py.round (Py.int_div used_number (1024 ^ 4)) 2,
          Py.round (Py.int_div total_number (1024 ^ 4)) 2, "TB") else st0 in
  let st2 :=
    if (10 <=? total_number_lenght) && (total_number_lenght <=? 12)
    then (Py.round (Py.int_div used_number (1024 ^ 3)) 2,
          Py.round (Py.int_div total_number (1024 ^ 3)) 2, "GB") else st1 in
  let st3 :=
    if total_number_lenght <? 10
    then (Py.round (Py.int_div used_number (1024 ^ 2)) 2,
          Py.round (Py.int_div total_number (1024 ^ 2)) 2, "MB") else st2 in
  st3.

(** ** Options, states and outcomes *)

(** The values of [--subcommand] that [argparse] accepts. *)
Inductive subcommand_t :=
| ceph | ceph_io | cluster | cpu | disks_health
| memory | pveversion | services | storage | swap.

Definition subcommand_name (s : subcommand_t) : string :=
  match s with
  | ceph => "ceph" | ceph_io => "ceph_io" | cluster => "cluster"
  | cpu => "cpu" | disks_health => "disks_health" | memory => "memory"
  | pveversion => "pveversion" | services => "services"
  | storage => "storage" | swap => "swap"
  end.

(** [self.options], as [argparse] fills it in: both thresholds are
    [None] unless given, the two disk lists default to the empty list. *)
Record options := {
  api_host : string;
  api_port : Z;
  api_user : string;
  api_password : option string;
  api_token : option string;
  api_insecure : bool;
  subcommand : subcommand_t;
  nodename : string;
  ignore_disks : list string;
  include_disks : list string;
  ceph_io_warning : Z;
  ceph_byte_warning : Z;
  threshold_warning : option Z;
  threshold_critical : option Z
}.

Inductive CheckState := OK | WARNING | CRITICAL | UNKNOWN.

Definition state_name (s : CheckState) : string :=
  match s with
  | OK => "OK" | WARNING => "WARNING" | CRITICAL => "CRITICAL" | UNKNOWN => "UNKNOWN"
  end.

Definition state_value (s : CheckState) : Z :=
  match s with
  | OK => 0 | WARNING => 1 | CRITICAL => 2 | UNKNOWN => 3
  end.

(** What a run leaves behind: the lines printed, and the exit status. *)
Record outcome := { printed : list string; exit_code : Z }.

(** [CheckPVE.output]: one line, then [sys.exit]. *)
Definition output (state : CheckState) (message : string) : outcome :=
  {| printed := [state_name state ++ " - " ++ message];
     exit_code := state_value state |}.

(** ** Threshold validation ([parse_args]) *)

(** The value of a Python expression that is a [bool], [None], or the
    [TypeError] of comparing with [None]. *)
Inductive py_bool := PyNone | PyBool (b : bool) | PyTypeError.

Definition py_lt (a b : option Z) : py_bool :=
  match a, b with
  | Some x, Some y => PyBool (x <? y)
  | _, _ => PyTypeError
  end.

Definition is_ascending (s : subcommand_t) : bool :=
  match s with
  | cpu | memory | storage | swap => true
  | _ => false
  end.

Definition is_disks_health (s : subcommand_t) : bool :=
  match s with disks_health => true | _ => false end.

(** [CheckPVE.check_thresholds_scale]: no [else], so [None] comes back
    when neither test applies. *)
Definition check_thresholds_scale (o : options) (scale : string) : py_bool :=
  if is_ascending (subcommand o) && String.eqb scale "increase"
  then py_lt (threshold_warning o) (threshold_critical o)
  else if is_disks_health (subcommand o) && String.eqb scale "decrease"
  then py_lt (threshold_critical o) (threshold_warning o)
  else PyNone.

(** [x == False]. *)
Definition is_False (x : py_bool) : bool :=
  match x with PyBool false => true | _ => false end.

Definition is_None {A} (x : option A) : bool :=
  match x with None => true | Some _ => false end.

(** [parser.error] writes the usage and the message to standard error
    and leaves with status 2; nothing reaches standard output. *)
Inductive parse_result :=
| ParserError (message : string)
| Parsed (o : options).

Definition needs_thresholds (s : subcommand_t) : bool :=
  match s with
  | cpu | disks_health | memory | storage | swap => true
  | _ => false
  end.

(** The checks at the end of [CheckPVE.parse_args]. *)
Definition parse_args (o : options) : parse_result :=
  if needs_thresholds (subcommand o) &&
     (is_None (threshold_warning o) || is_None (threshold_critical o))
  then ParserError ("--warning and --critical arguments are required for '"
                    ++ subcommand_name (subcommand o) ++ "' subcommand!")
  else if is_False (check_thresholds_scale o "increase")
  then ParserError ("--warning threshold must be lower then --critical threshold for '"
                    ++ subcommand_name (subcommand o) ++ "' subcommand!")
  else if is_False (check_thresholds_scale o "decrease")
  then ParserError ("--warning threshold must be higher then --critical threshold for '"
                    ++ subcommand_name (subcommand o) ++ "' subcommand!")
  else Parsed o.

(** ** Payloads *)

Record used_total := { used : Z; total : Z }.

(** [nodes/<node>/status], the fields read by cpu, memory and swap. *)
Record node_status := {
  st_cpu : json_number;
  st_memory : used_total;
  st_swap : used_total
}.

(** [wearout] is an [int] for a solid-state disk and a string such as
    [N/A] otherwise. *)
Inductive wearout_t := WearInt (n : Z) | WearStr (s : string).

Record disk := {
  vendor : string;
  model : string;
  disk_type : string;
  devpath : string;
  health : string;
  wearout : wearout_t
}.

Record service := {
  service_name : string;
  service_desc : string;
  service_unit_state : string;
  service_state : string;
  service_active_state : string
}.

Record storage_t := {
  storage_name : string;
  storage_enabled : Z;
  storage_active : Z;
  storage_type : string;
  storage_used_byte : Z;
  storage_total_byte : Z
}.

Inductive request_output :=
| NodeStatus (s : node_status)
| DisksList (l : list disk)
| ServicesList (l : list service)
| StorageList (l : list storage_t).

(** [result_list.append(x)]. *)
Definition list_append (result_list : list string) (x : string) : list string :=
  (result_list ++ [x])%list.

Definition blanks (n : nat) : string := string_of_list_ascii (repeat " "%char n).

(** ** The aggregator *)

(** [CheckPVE.check_exitcodes]: three independent [if]s print, then
    the status is chosen. *)
Definition check_exitcodes (result_list : list string) : outcome :=
  let out1 := if Py.any_contains "CRITICAL" result_list
              then filter (Py.contains "CRITICAL") result_list else [] in
  let out2 := if Py.any_contains "WARNING" result_list
              then filter (Py.contains "WARNING") result_list else [] in
  let out3 := if Py.any_contains "OK -" result_list
              then filter (Py.contains "OK -") result_list else [] in
  {| printed := out1 ++ out2 ++ out3;
     exit_code := if Py.any_contains "CRITICAL" result_list then 2
                  else if Py.any_contains "WARNING" result_list then 1
                  else 0 |}.

(** ** The evaluators *)

Section Evaluators.

(** The thresholds and disk lists of [self.options]; [parse_args] has
    made sure that both thresholds are present for every evaluator
    that reads them. *)
Variables threshold_warning_v threshold_critical_v : Z.
Variables include_disks_v ignore_disks_v : list string.

(** The three-way split shared by cpu, memory and swap: an
    [if]/[elif]/[elif] without [else]. *)
Definition three_way (value : Q) (message : string) : option outcome :=
  if Py.int_le_float threshold_critical_v value
  then Some (output CRITICAL message)
  else if Py.int_le_float threshold_warning_v value
          && Py.float_le_int value threshold_critical_v
  then Some (output WARNING message)
  else if Py.float_lt_int value threshold_warning_v
  then Some (output OK message)
  else None.

(** [CheckPVE.check_cpu].  [round(cpu * 100, 2)]: on an [int] the
    product is an [int] and [round] leaves it one; on a float the
    product is rounded to binary64 before [round] sees it. *)
Definition cpu_usage_of (cpu_v : json_number) : py_number :=
  match cpu_v with
  | JInt n => PyInt (n * 100)
  | JFloat literal => PyFloat (Py.round (Fl.mul (Fl.fl literal) 100) 2)
  end.

Definition cpu_message (cpu_usage : py_number) : string :=
  "CPU usage is " ++ str_number cpu_usage ++ " %. |usage="
  ++ str_number cpu_usage ++ "%;" ++ Py.str_int threshold_warning_v ++ ";"
  ++ Py.str_int threshold_critical_v ++ ";0;100".

Definition check_cpu (request_output : node_status) : option outcome :=
  let cpu_usage := cpu_usage_of (st_cpu request_output) in
  let message := cpu_message cpu_usage in
  three_way (number_value cpu_usage) message.

(** [CheckPVE.check_memory]; [sub] is the dictionary under the key
    named by the subcommand. *)
Definition memory_message (subcommand_s : string)
    (memory_used memory_total memory_used_percent : Q) : string :=
  let memory_used_warning :=
    Py.round (Fl.mul (Fl.div (Fl.fl memory_total) 100)
                     (Fl.of_int threshold_warning_v)) 2 in
  let memory_used_critical :=
    Py.round (Fl.mul (Fl.div (Fl.fl memory_total) 100)
                     (Fl.of_int threshold_critical_v)) 2 in
  subcommand_s ++ " usage is " ++ Py.str_float memory_used_percent ++ " % ("
  ++ Py.str_float memory_used ++ " GB / " ++ Py.str_float memory_total ++ " GB)!"
  ++ blanks 16 ++ "|usage=" ++ Py.str_float memory_used ++ "GB;"
  ++ Py.str_float memory_used_warning ++ ";" ++ Py.str_float memory_used_critical
  ++ ";0;" ++ Py.str_float memory_total.

Definition memory_percent (memory_used memory_total : Q) : Q :=
  if Qeq_bool (Fl.fl memory_total) 0
  then Py.round (Fl.mul (Fl.div (Fl.fl memory_used) 1) 100) 2
  else Py.round (Fl.mul (Fl.div (Fl.fl memory_used) (Fl.fl memory_total)) 100) 2.

Definition check_memory (sub : used_total) (subcommand_s : string) : option outcome :=
  let memory_used := Py.round (Py.int_div (used sub) (1024 ^ 3)) 1 in
  let memory_total := Py.round (Py.int_div (total sub) (1024 ^ 3)) 1 in
  let memory_used_percent := memory_percent memory_used memory_total in
  let message :=
    memory_message subcommand_s memory_used memory_total memory_used_percent in
  three_way (Fl.fl memory_used_percent) message.

(** [CheckPVE.check_swap]. *)
Definition check_swap (sub : used_total) (subcommand_s : string) : option outcome :=
  check_memory sub subcommand_s.

(** [CheckPVE.check_disks_health], the body of the loop.  The list
    comprehension at its end carries two [if] clauses, so a line is
    kept when it matches both patterns. *)
Definition disk_failed_message (d : disk) : string :=
  "WARNING - " ++ Py.strip (vendor d) ++ " - " ++ model d ++ " type: "
  ++ disk_type d ++ " on " ++ devpath d ++ " is failed: " ++ health d.

Definition disk_wearout_message (prefix : string) (d : disk) (w : Z) : string :=
  prefix ++ " - " ++ Py.strip (vendor d) ++ " - " ++ model d ++ " type: "
  ++ disk_type d ++ " on " ++ devpath d ++ " has low wearout: " ++ Py.str_int w.

Definition disks_ok_message : string := "OK - All disks are healthy.".

Definition health_is_bad (disk_health : string) : bool :=
  negb (String.eqb disk_health "OK") && negb (String.eqb disk_health "PASSED")
  && negb (String.eqb disk_health "UNKNOWN").

Definition disks_baseline (result_list : list string) : list string :=
  if negb (Py.any_contains "WARNING" result_list)
     || negb (Py.any_contains "CRITICAL" result_list)
  then list_append result_list disks_ok_message
  else result_list.

Definition disks_health_step (result_list : list string) (d : disk) : list string :=
  let appended :=
    if health_is_bad (health d)
    then list_append result_list (disk_failed_message d)
    else match wearout d with
         | WearInt w =>
             if (w <=? threshold_warning_v) && (w >=? threshold_critical_v)
             then list_append result_list (disk_wearout_message "WARNING" d w)
             else if w <=? threshold_critical_v
             then list_append result_list (disk_wearout_message "CRITICAL" d w)
             else disks_baseline result_list
         | WearStr _ => disks_baseline result_list
         end in
  if Py.any_contains "WARNING" appended
  then filter (fun x => Py.contains "WARNING -" x && Py.contains "CRITICAL -" x) appended
  else appended.

(** [set(result_list)]: duplicates are dropped.  Python does not fix the
    order in which a set is walked; the model keeps the list order. *)
Definition to_set (result_list : list string) : list string :=
  nodup string_dec result_list.

Definition check_disks_health (result_list : list string) (request_output : list disk)
  : list string :=
  to_set (fold_left disks_health_step request_output result_list).

(** [CheckPVE.check_services]. *)
Definition service_warning_message (e : service) : string :=
  "WARNING - " ++ service_desc e ++ " (" ++ service_name e ++ ") is "
  ++ service_state e ++ ".".

Definition services_ok_message : string := "OK - All services are running.".

Definition service_is_faulty (e : service) : bool :=
  (negb (String.eqb (service_state e) "running")
   || negb (String.eqb (service_active_state e) "active"))
  && negb (String.eqb (service_unit_state e) "not-found").

Definition services_step (result_list : list string) (element : service) : list string :=
  let appended :=
    if service_is_faulty element
    then list_append result_list (service_warning_message element)
    else if negb (Py.any_contains "WARNING" result_list)
    then list_append result_list services_ok_message
    else result_list in
  if Py.any_contains "WARNING" appended
  then filter (Py.contains "WARNING -") appended
  else appended.

Definition check_services (result_list : list string) (request_output : list service)
  : list string :=
  to_set (fold_left services_step request_output result_list).

(** [CheckPVE.check_storage]: the values computed for one entry, the
    inner function [check_storage_inside], and the choice between the
    two disk lists. *)
Definition storage_used_percent_of (s : storage_t) : Q :=
  if storage_total_byte s =? 0
  then Py.round ((inject_Z (storage_used_byte s) / 1) * 100) 2
  else Py.round (Fl.mul (Py.int_div (storage_used_byte s) (storage_total_byte s))
                        100) 2.

Definition storage_message (s : storage_t) : string :=
  let storage_used_percent := storage_used_percent_of s in
  let '(storage_used, storage_used_unit) := check_UOM (storage_used_byte s) in
  let '(storage_total, storage_total_unit) := check_UOM (storage_total_byte s) in
  let '(storage_common_used, storage_common_total, storage_common_unit) :=
    get_common_unit (storage_used_byte s) (storage_total_byte s) in
  let storage_used_warning :=
    Py.round (Fl.mul (Fl.div (Fl.fl storage_total) 100)
                     (Fl.of_int threshold_warning_v)) 2 in
  let storage_used_critical :=
    Py.round (Fl.mul (Fl.div (Fl.fl storage_total) 100)
                     (Fl.of_int threshold_critical_v)) 2 in
  storage_name s ++ " disk usage (type: " ++ storage_type s ++ ") is "
  ++ Py.str_float storage_used_percent ++ " % (" ++ Py.str_float storage_used ++ " "
  ++ storage_used_unit ++ " / " ++ Py.str_float storage_total ++ " "
  ++ storage_total_unit ++ ")." ++ blanks 24 ++ "|" ++ storage_name s ++ "="
  ++ Py.str_float storage_common_used ++ storage_common_unit ++ ";"
  ++ Py.str_float storage_used_warning ++ ";" ++ Py.str_float storage_used_critical
  ++ ";0;" ++ Py.str_float storage_common_total.

Definition check_storage_inside (result_list : list string) (s : storage_t) : list string :=
  let storage_used_percent := Fl.fl (storage_used_percent_of s) in
  let message := storage_message s in
  if storage_enabled s =? 1
  then if negb (storage_active s =? 1)
       then list_append result_list ("WARNING - " ++ storage_name s ++ " disk is not active!")
       else if Py.int_le_float threshold_critical_v storage_used_percent
       then list_append result_list ("CRITICAL - " ++ message)
       else if Py.int_le_float threshold_warning_v storage_used_percent
               && Py.float_le_int storage_used_percent threshold_critical_v
       then list_append result_list ("WARNING - " ++ message)
       else if Py.float_lt_int storage_used_percent threshold_warning_v
       then list_append result_list ("OK - " ++ message)
       else result_list
  else result_list.

(** [name in names]. *)
Definition name_in (name : string) (names : list string) : bool :=
  existsb (String.eqb name) names.

Definition storage_step (result_list : list string) (s : storage_t) : list string :=
  if (0 <? length include_disks_v)%nat
  then if name_in (storage_name s) include_disks_v
       then check_storage_inside result_list s
       else result_list
  else if negb (name_in (storage_name s) ignore_disks_v)
       then check_storage_inside result_list s
       else result_list.

Definition check_storage (result_list : list string) (request_output : list storage_t)
  : list string :=
  fold_left storage_step request_output result_list.

End Evaluators.

(** ** The run *)

(** [CheckPVE.main] after the request: the evaluator named by the
    subcommand, then [check_exitcodes] on [self.result_list] unless the
    evaluator has left through [output].  [None] stands for the
    subcommands and payload shapes this development does not cover
    (ceph, ceph_io, cluster, pveversion). *)
Definition main (o : options) (request_output_v : request_output) : option outcome :=
  match threshold_warning o, threshold_critical o with
  | Some w, Some c =>
      match subcommand o, request_output_v with
      | cpu, NodeStatus s =>
          Some (match check_cpu w c s with
                | Some out => out
                | None => check_exitcodes []
                end)
      | memory, NodeStatus s =>
          Some (match check_memory w c (st_memory s) "memory" with
                | Some out => out
                | None => check_exitcodes []
                end)
      | swap, NodeStatus s =>
          Some (match check_swap w c (st_swap s) "swap" with
                | Some out => out
                | None => check_exitcodes []
                end)
      | disks_health, DisksList l =>
          Some (check_exitcodes (check_disks_health w c [] l))
      | services, ServicesList l =>
          Some (check_exitcodes (check_services [] l))
      | storage, StorageList l =>
          Some (check_exitcodes
                  (check_storage w c (include_disks o) (ignore_disks o) [] l))
      | _, _ => None
      end
  | _, _ =>
      match subcommand o, request_output_v with
      | services, ServicesList l =>
          Some (check_exitcodes (check_services [] l))
      | _, _ => None
      end
  end.

(** *** Transport *)

(** What comes of one call of [requests.get] or [requests.post]: an
    HTTP response, with its status and the [data] member of its JSON
    body ([None] when the body is not JSON or holds no such member);
    one of the three exceptions [request] catches; or any other
    exception, such as the read time-out of the POST. *)
Inductive response (A : Type) :=
| Response (status_code : Z) (data : option A)
| ConnectTimeout
| SSLError
| ConnectionError
| OtherException.
Arguments Response {A} status_code data.
Arguments ConnectTimeout {A}.
Arguments SSLError {A}.
Arguments ConnectionError {A}.
Arguments OtherException {A}.

(** A response with status 200 and a body that carries [data]. *)
Definition RespOk {A} (data : A) : response A := Response 200 (Some data).

(** [response.ok]: the status is no client or server error. *)
Definition response_ok (status_code : Z) : bool :=
  negb ((400 <=? status_code) && (status_code <? 600)).

(** How a call of [request] ends: it returns the data, it leaves the
    run through [output], or an exception it does not catch goes up. *)
Inductive requested (A : Type) :=
| Returned (data : A)
| Left (out : outcome)
| Raised.
Arguments Returned {A} data.
Arguments Left {A} out.
Arguments Raised {A}.

(** [CheckPVE.request], given what the call comes to. *)
Definition request {A} (answer : response A) : requested A :=
  match answer with
  | Response status_code data =>
      if response_ok status_code
      then match data with
           | Some d => Returned d
           | None => Raised
           end
      else
        Left (output UNKNOWN
                ("Could not fetch data from API: " ++
                 if status_code =? 401
                 then "Could not connection to PVE API: invalid username or password"
                 else if status_code =? 403
                 then "Access denied. Please check if API user has sufficient permissions / the role has been assigned."
                 else "HTTP error code was " ++ Py.str_int status_code))
  | ConnectTimeout =>
      Left (output UNKNOWN "Could not connect to PVE API: Connection timeout")
  | SSLError =>
      Left (output UNKNOWN "Could not connect to PVE API: Certificate validation failed")
  | ConnectionError =>
      Left (output UNKNOWN "Could not connect to PVE API: Failed to resolve hostname")
  | OtherException => Raised
  end.

(** [CheckPVE.get_url]. *)
Definition api_url (o : options) (command : string) : string :=
  "https://" ++ api_host o ++ ":" ++ Py.str_int (api_port o) ++ "/api2/json/" ++ command.

Definition get_url (o : options) (apiurl : string) : string :=
  if String.eqb apiurl "cpu" || String.eqb apiurl "memory"
     || String.eqb apiurl "pveversion" || String.eqb apiurl "swap"
  then api_url o ("nodes/" ++ nodename o ++ "/status")
  else if String.eqb apiurl "disks_health"
  then api_url o ("nodes/" ++ nodename o ++ "/disks/list")
  else if String.eqb apiurl "ceph"
  then api_url o "cluster/ceph/status"
  else if String.eqb apiurl "ceph_io"
  then api_url o ("nodes/" ++ nodename o ++ "/ceph/status")
  else if String.eqb apiurl "cluster"
  then api_url o "cluster/status"
  else if String.eqb apiurl "storage"
  then api_url o ("nodes/" ++ nodename o ++ "/storage")
  else if String.eqb apiurl "services"
  then api_url o ("nodes/" ++ nodename o ++ "/services")
  else api_url o apiurl.

(** What the API answers to the ticket request and to the data request
    of one run.  For the ticket request the data is the [ticket] member
    that [get_ticket] reads from it. *)
Record network := {
  ticket_answer : response string;
  data_answer : response request_output
}.

Inductive net_event := Post (url : string) | Get (url : string).

(** How a run ends: with the usage error of [argparse], with printed
    lines and a status, with the traceback of an exception nobody
    caught (status 1, nothing on standard output), or in an evaluator
    outside this development. *)
Inductive run_result :=
| UsageError (message : string)
| Exit (out : outcome)
| Traceback
| Outside.

(** [CheckPVE()] followed by [main()]: the arguments are checked first,
    a password is traded for a ticket, then the one data request is
    made and evaluated.  The first component lists the requests sent,
    in order. *)
Definition run (o : options) (net : network) : list net_event * run_result :=
  match parse_args o with
  | ParserError message => ([], UsageError message)
  | Parsed o =>
      let ticket_events :=
        if is_None (api_password o) then [] else [Post (get_url o "access/ticket")] in
      let ticket_failure :=
        if is_None (api_password o) then None
        else match request (ticket_answer net) with
             | Left out => Some (Exit out)
             | Raised => Some Traceback
             | Returned _ => None
             end in
      match ticket_failure with
      | Some result => (ticket_events, result)
      | None =>
          let events :=
            (ticket_events ++ [Get (get_url o (subcommand_name (subcommand o)))])%list in
          match request (data_answer net) with
          | Left out => (events, Exit out)
          | Raised => (events, Traceback)
          | Returned data =>
              (events, match main o data with
                       | Some out => Exit out
                       | None => Outside
                       end)
          end
      end
  end.

(** ** The evaluators that read no disk or service list *)

(** [cluster/ceph/status], the field read. *)
Record ceph_health := { health_status : string }.

(** [CheckPVE.check_ceph]. *)
Definition check_ceph (perfdata : ceph_health) : outcome :=
  if negb (String.eqb (health_status perfdata) "HEALTH_OK")
  then output WARNING "CEPH cluster is unhealthy!"
  else output OK "CEPH cluster is healthy.".

(** [nodes/<node>/ceph/status], the counters under [pgmap]. *)
Record pgmap_t := {
  read_bytes_sec : Z;
  write_bytes_sec : Z;
  read_op_per_sec : Z;
  write_op_per_sec : Z
}.

(** [CheckPVE.check_ceph_io]: two findings, appended in this order. *)
Definition ceph_ops_message (ceph_io_warning_v read_op write_op : Z) : string :=
  "CEPH IO operation usage is " ++ Py.str_int read_op ++ " ops read / "
  ++ Py.str_int write_op ++ " ops write per seconds." ++ blanks 8
  ++ "|'ceph io read per sec'=" ++ Py.str_int read_op ++ ";"
  ++ Py.str_int ceph_io_warning_v ++ ";;0; 'ceph io write per sec'="
  ++ Py.str_int write_op ++ ";" ++ Py.str_int ceph_io_warning_v ++ ";;0;".

Definition ceph_bytes_message (ceph_byte_warning_v : Z) (read_bytes write_bytes : Q)
  : string :=
  "CEPH IO byte usage is " ++ Py.str_float read_bytes ++ " MB read / "
  ++ Py.str_float write_bytes ++ " MB write per seconds." ++ blanks 8
  ++ "|'ceph byte read per sec'=" ++ Py.str_float read_bytes ++ ";"
  ++ Py.str_int ceph_byte_warning_v ++ ";;0; 'ceph byte write per sec'="
  ++ Py.str_float write_bytes ++ ";" ++ Py.str_int ceph_byte_warning_v ++ ";;0;".

Definition check_ceph_io (ceph_io_warning_v ceph_byte_warning_v : Z)
    (result_list : list string) (pgmap : pgmap_t) : list string :=
  let read_bytes := Py.round (Py.int_div (read_bytes_sec pgmap) 1048576) 2 in
  let write_bytes := Py.round (Py.int_div (write_bytes_sec pgmap) 1048576) 2 in
  let read_op := read_op_per_sec pgmap in
  let write_op := write_op_per_sec pgmap in
  let message := ceph_ops_message ceph_io_warning_v read_op write_op in
  let result_list :=
    if (ceph_io_warning_v <=? read_op) || (ceph_io_warning_v <=? write_op)
    then list_append result_list ("WARNING - " ++ message)
    else list_append result_list ("OK - " ++ message) in
  let message := ceph_bytes_message ceph_byte_warning_v read_bytes write_bytes in
  if Py.int_le_float ceph_byte_warning_v read_bytes
     || Py.int_le_float ceph_byte_warning_v write_bytes
  then list_append result_list ("WARNING - " ++ message)
  else list_append result_list ("OK - " ++ message).

(** [cluster/status]: the cluster entry, then the nodes.  [quorate] is
    [None] for a JSON [null]. *)
Record cluster_summary := {
  cluster_name : string;
  quorate : option Z
}.

Record cluster_node := {
  node_name : string;
  node_online : Z;
  node_ip : string
}.

(** A Python [dict] with string keys, in insertion order:
    [d[k] = v] overwrites in place or appends. *)
Fixpoint dict_set {V} (d : list (string * V)) (k : string) (v : V)
  : list (string * V) :=
  match d with
  | [] => [(k, v)]
  | (k', v') :: rest =>
      if String.eqb k' k then (k, v) :: rest
      else (k', v') :: dict_set rest k v
  end.

(** [CheckPVE.check_cluster], the two loops. *)
Definition node_details (nodelist : list cluster_node)
  : list (string * (string * string)) :=
  fold_left
    (fun node_details_dict node =>
       if node_online node =? 1
       then dict_set node_details_dict (node_name node) ("online", node_ip node)
       else dict_set node_details_dict (node_name node) ("offline", node_ip node))
    nodelist [].

Definition offline_nodes (node_details_dict : list (string * (string * string)))
  : list string :=
  map fst (filter (fun kv => negb (String.eqb (fst (snd kv)) "online"))
                  node_details_dict).

Definition check_cluster (summary : cluster_summary) (nodelist : list cluster_node)
  : outcome :=
  let clustername := cluster_name summary in
  match quorate summary with
  | None => output WARNING "There is no cluster configuration!"
  | Some q =>
      if q =? 1
      then
        let offline_node_list := offline_nodes (node_details nodelist) in
        if (0 <? length offline_node_list)%nat
        then output WARNING
               (clustername ++ " cluster are working, but there is offline nodes: "
                ++ Py.str_tuple offline_node_list ++ "!")
        else output OK (clustername ++ " cluster is working well.")
      else output CRITICAL ("There is no quorum in " ++ clustername ++ " cluster!")
  end.

(** [CheckPVE.check_pveversion]; [None] is the [IndexError] of a
    version string without a slash. *)
Definition check_pveversion (pveversion_v : string) : option outcome :=
  match Py.split "/"%char pveversion_v with
  | first :: second :: _ => Some (output OK (first ++ "/" ++ second))
  | _ => None
  end.

(** The run of these four after the request: ceph, cluster and
    pveversion leave through [output], ceph_io hands its two findings
    to [check_exitcodes]. *)
Inductive status_output :=
| CephStatus (perfdata : ceph_health)
| CephIoStatus (pgmap : pgmap_t)
| ClusterStatus (summary : cluster_summary) (nodelist : list cluster_node)
| VersionStatus (pveversion_v : string).

Definition main_status (o : options) (request_output_v : status_output)
  : option outcome :=
  match subcommand o, request_output_v with
  | ceph, CephStatus perfdata => Some (check_ceph perfdata)
  | ceph_io, CephIoStatus pgmap =>
      Some (check_exitcodes
              (check_ceph_io (ceph_io_warning o) (ceph_byte_warning o) [] pgmap))
  | cluster, ClusterStatus summary nodelist => Some (check_cluster summary nodelist)
  | pveversion, VersionStatus v => check_pveversion v
  | _, _ => None
  end.

(** ** Vocabulary of the statements

    The selections and verdicts as the plugin's description words them,
    and the configurations and payloads of the examples. *)

(** The digit count of a byte count. *)
Definition digit_count (n : Z) : Z := Z.of_nat (String.length (Py.str_int n)).

(** The unit a digit count selects, as the description words it: the
    exponent of the divisor [1024^e] and the label. *)
Definition unit_exponent (digits : Z) : Z :=
  if digits <? 10 then 2 else if digits <=? 12 then 3 else 4.

Definition unit_label (e : Z) : string :=
  if e =? 2 then "MB" else if e =? 3 then "GB" else "TB".

(** The value shown for [n] bytes in the unit of exponent [e]. *)
Definition scaled (n e : Z) : Q := Py.round (Py.int_div n (1024 ^ e)) 2.

(** The aggregation as the description words it: the findings of the
    highest severity present, and nothing else. *)
Definition winning_findings (result_list : list string) : outcome :=
  if Py.any_contains "CRITICAL" result_list
  then {| printed := filter (Py.contains "CRITICAL") result_list; exit_code := 2 |}
  else if Py.any_contains "WARNING" result_list
  then {| printed := filter (Py.contains "WARNING") result_list; exit_code := 1 |}
  else {| printed := filter (Py.contains "OK -") result_list; exit_code := 0 |}.

Definition three_stores : list storage_t :=
  [ {| storage_name := "local"; storage_enabled := 1; storage_active := 1;
       storage_type := "dir"; storage_used_byte := 1073741824;
       storage_total_byte := 10737418240 |};
    {| storage_name := "backup"; storage_enabled := 1; storage_active := 1;
       storage_type := "nfs"; storage_used_byte := 10200547328;
       storage_total_byte := 10737418240 |};
    {| storage_name := "tank"; storage_enabled := 1; storage_active := 0;
       storage_type := "zfspool"; storage_used_byte := 0; storage_total_byte := 0 |} ].

(** The test of [check_services] on one record, as a proposition. *)
Definition service_faulty (e : service) : Prop :=
  (service_state e <> "running" \/ service_active_state e <> "active")
  /\ service_unit_state e <> "not-found".

(** The test as the description words it: not running and not active
    and not missing. *)
Definition service_faulty_conjunctive (e : service) : bool :=
  negb (String.eqb (service_state e) "running")
  && negb (String.eqb (service_active_state e) "active")
  && negb (String.eqb (service_unit_state e) "not-found").

Definition running_but_failed : service :=
  {| service_name := "pveproxy"; service_desc := "PVE API Proxy Server";
     service_unit_state := "enabled"; service_state := "running";
     service_active_state := "failed" |}.

(** The verdict [three_way] reaches, the tests taken in their order. *)
Definition verdict (warning critical : Z) (value : Q) : CheckState :=
  if Qle_bool (inject_Z critical) value then CRITICAL
  else if Qle_bool (inject_Z warning) value then WARNING
  else OK.

Definition status_of_cpu (c : Q) : node_status :=
  {| st_cpu := JFloat c;
     st_memory := {| used := 0; total := 0 |};
     st_swap := {| used := 0; total := 0 |} |}.

Definition token_options (s : subcommand_t) (w c : option Z) : options :=
  {| api_host := "pve.mydomain.com"; api_port := 8006;
     api_user := "monitoring@pve"; api_password := None;
     api_token := Some "A12fhaDFCjn92aKt=123f922a"; api_insecure := true;
     subcommand := s; nodename := "pve1";
     ignore_disks := []; include_disks := [];
     ceph_io_warning := 10000; ceph_byte_warning := 200;
     threshold_warning := w; threshold_critical := c |}.

Definition answers (data : request_output) : network :=
  {| ticket_answer := ConnectionError; data_answer := RespOk data |}.

(** The verdict of the description, on the unrounded product. *)
Definition cpu_verdict_unrounded (warning critical : Z) (c : Q) : CheckState :=
  verdict warning critical (c * 100).

(** The percentage of the description, in exact arithmetic: the ratio
    of the two readings, or a hundred times the used reading (in GB)
    when the total is 0. *)
Definition memory_percent_of_readings (sub : used_total) : Q :=
  if total sub =? 0
  then inject_Z (used sub) / inject_Z (1024 ^ 3) * 100
  else inject_Z (used sub) / inject_Z (total sub) * 100.

Definition memory_verdict_of_readings (warning critical : Z) (sub : used_total)
  : CheckState :=
  verdict warning critical (memory_percent_of_readings sub).

Definition nearly_full : used_total :=
  {| used := 1030000000; total := 1100000000 |}.

Definition failed_disk : disk :=
  {| vendor := "ATA     "; model := "Samsung SSD 860"; disk_type := "ssd";
     devpath := "/dev/sda"; health := "FAILED"; wearout := WearInt 99 |}.

Definition passed_disk : disk :=
  {| vendor := "ATA     "; model := "WDC WD40EFRX"; disk_type := "hdd";
     devpath := "/dev/sdb"; health := "PASSED"; wearout := WearStr "N/A" |}.

(** A disk is healthy when its health is one of OK, PASSED, UNKNOWN
    and its wearout, if a number, lies above the warning threshold. *)
Definition disk_healthy (warning : Z) (d : disk) : Prop :=
  health_is_bad (health d) = false /\
  match wearout d with
  | WearInt n => warning < n
  | WearStr _ => True
  end.

Definition ascending_subcommands : list subcommand_t := [cpu; memory; storage; swap].

Definition with_ignore_disks (o : options) (names : list string) : options :=
  {| api_host := api_host o; api_port := api_port o; api_user := api_user o;
     api_password := api_password o; api_token := api_token o;
     api_insecure := api_insecure o; subcommand := subcommand o;
     nodename := nodename o; ignore_disks := names;
     include_disks := include_disks o;
     ceph_io_warning := ceph_io_warning o; ceph_byte_warning := ceph_byte_warning o;
     threshold_warning := threshold_warning o;
     threshold_critical := threshold_critical o |}.

(** An entry the loop passes over. *)
Definition storage_skipped (include ignore : list string) (s : storage_t) : Prop :=
  storage_enabled s <> 1
  \/ (include <> [] /\ name_in (storage_name s) include = false)
  \/ (include = [] /\ name_in (storage_name s) ignore = true).

Definition two_stores : list storage_t :=
  [ {| storage_name := "local"; storage_enabled := 1; storage_active := 1;
       storage_type := "dir"; storage_used_byte := 8000000000;
       storage_total_byte := 10000000000 |};
    {| storage_name := "vm-backup"; storage_enabled := 1; storage_active := 0;
       storage_type := "nfs"; storage_used_byte := 0; storage_total_byte := 0 |} ].

Definition storage_options_ignoring (names : list string) : options :=
  with_ignore_disks (token_options storage (Some 70) (Some 80)) names.

Definition disabled_and_ignored : list storage_t :=
  [ {| storage_name := "old-pool"; storage_enabled := 0; storage_active := 0;
       storage_type := "zfspool"; storage_used_byte := 0; storage_total_byte := 0 |};
    {| storage_name := "vm-backup"; storage_enabled := 1; storage_active := 1;
       storage_type := "nfs"; storage_used_byte := 9900000000;
       storage_total_byte := 10000000000 |} ].

(** ** Vocabulary of the further properties *)

(** The subcommands for which [parse_args] asks for both thresholds. *)
Definition threshold_subcommands : list subcommand_t :=
  [cpu; disks_health; memory; storage; swap].

(** The path each subcommand is served from. *)
Definition endpoint (node : string) (s : subcommand_t) : string :=
  match s with
  | cpu | memory | pveversion | swap => "nodes/" ++ node ++ "/status"
  | disks_health => "nodes/" ++ node ++ "/disks/list"
  | ceph => "cluster/ceph/status"
  | ceph_io => "nodes/" ++ node ++ "/ceph/status"
  | cluster => "cluster/status"
  | storage => "nodes/" ++ node ++ "/storage"
  | services => "nodes/" ++ node ++ "/services"
  end.

Definition ticket_request (o : options) : net_event :=
  Post (api_url o "access/ticket").

Definition data_request (o : options) : net_event :=
  Get (api_url o (endpoint (nodename o) (subcommand o))).




(** How many of the three patterns of [check_exitcodes] a line matches. *)
Definition markers (x : string) : nat :=
  ((if Py.contains "CRITICAL" x then 1 else 0)
   + (if Py.contains "WARNING" x then 1 else 0)
   + (if Py.contains "OK -" x then 1 else 0))%nat.

(** Whether the loop of [check_storage] looks at an entry at all. *)
Definition storage_selected (include ignore : list string) (s : storage_t) : bool :=
  if (0 <? length include)%nat
  then name_in (storage_name s) include
  else negb (name_in (storage_name s) ignore).

(** The one line an enabled entry is reported with. *)
Definition storage_finding (warning critical : Z) (s : storage_t) : string :=
  if negb (storage_active s =? 1)
  then "WARNING - " ++ storage_name s ++ " disk is not active!"
  else state_name (verdict warning critical (Fl.fl (storage_used_percent_of s)))
       ++ " - " ++ storage_message warning critical s.

Definition with_include_disks (o : options) (names : list string) : options :=
  {| api_host := api_host o; api_port := api_port o; api_user := api_user o;
     api_password := api_password o; api_token := api_token o;
     api_insecure := api_insecure o; subcommand := subcommand o;
     nodename := nodename o; ignore_disks := ignore_disks o;
     include_disks := names;
     ceph_io_warning := ceph_io_warning o; ceph_byte_warning := ceph_byte_warning o;
     threshold_warning := threshold_warning o;
     threshold_critical := threshold_critical o |}.

Definition store (name : string) (enabled active used_b total_b : Z) : storage_t :=
  {| storage_name := name; storage_enabled := enabled; storage_active := active;
     storage_type := "dir"; storage_used_byte := used_b;
     storage_total_byte := total_b |}.

(** The WARNING line [check_disks_health] appends for a disk in bad
    health or with a wearout between the thresholds. *)
Definition disk_warning_line (d : disk) : string :=
  if health_is_bad (health d) then disk_failed_message d
  else match wearout d with
       | WearInt n => disk_wearout_message "WARNING" d n
       | WearStr _ => disk_failed_message d
       end.

(** A disk that draws that line. *)
Definition disk_warned (warning critical : Z) (d : disk) : Prop :=
  health_is_bad (health d) = true
  \/ exists n, wearout d = WearInt n /\ critical <= n <= warning.

(** A disk in good health whose wearout is below the critical threshold. *)
Definition disk_worn_out (critical : Z) (d : disk) : Prop :=
  health_is_bad (health d) = false
  /\ exists n, wearout d = WearInt n /\ n < critical.

(** The line of a disk that is healthy or worn out. *)
Definition disk_report_line (critical : Z) (d : disk) : string :=
  match wearout d with
  | WearInt n =>
      if n <=? critical then disk_wearout_message "CRITICAL" d n
      else disks_ok_message
  | WearStr _ => disks_ok_message
  end.

Definition service_of (name state active_state : string) : service :=
  {| service_name := name; service_desc := name; service_unit_state := "enabled";
     service_state := state; service_active_state := active_state |}.

(** A disk that draws no WARNING line: good health, and a wearout
    that is no number, above the warning or below the critical
    threshold. *)
Definition disk_unwarned (warning critical : Z) (d : disk) : Prop :=
  health_is_bad (health d) = false
  /\ match wearout d with
     | WearInt n => n < critical \/ warning < n
     | WearStr _ => True
     end.

Definition worn_disk : disk :=
  {| vendor := "ATA     "; model := "Samsung SSD 860"; disk_type := "ssd";
     devpath := "/dev/sdc"; health := "PASSED"; wearout := WearInt 4 |}.

Definition ageing_disk : disk :=
  {| vendor := "ATA     "; model := "Samsung SSD 860"; disk_type := "ssd";
     devpath := "/dev/sdd"; health := "PASSED"; wearout := WearInt 15 |}.

(** [d.get(k)] on the dictionary model. *)
Fixpoint dict_get {V} (d : list (string * V)) (k : string) : option V :=
  match d with
  | [] => None
  | (k', v) :: rest => if String.eqb k' k then Some v else dict_get rest k
  end.

(** The last entry of the node list that carries the name [k]. *)
Definition last_entry (nodelist : list cluster_node) (k : string)
  : option cluster_node :=
  find (fun n => String.eqb (node_name n) k) (rev nodelist).

(** What the first loop of [check_cluster] stores for a node. *)
Definition node_record (n : cluster_node) : string * string :=
  (if node_online n =? 1 then "online" else "offline", node_ip n).

Definition node (name : string) (online : Z) : cluster_node :=
  {| node_name := name; node_online := online; node_ip := "10.0.0.1" |}.

(** The characters [str] writes a number with. *)
Definition numeric_char (c : ascii) : bool := Py.has_char c "0123456789.-".

Fixpoint all_numeric (s : string) : bool :=
  match s with
  | EmptyString => true
  | String c rest => numeric_char c && all_numeric rest
  end.

(** The two messages of [check_ceph_io] around the numbers, the numbers
    given as they are written. *)
Definition ceph_ops_text (threshold read_op write_op : string) : string :=
  "CEPH IO operation usage is " ++ read_op ++ " ops read / "
  ++ write_op ++ " ops write per seconds." ++ blanks 8
  ++ "|'ceph io read per sec'=" ++ read_op ++ ";"
  ++ threshold ++ ";;0; 'ceph io write per sec'="
  ++ write_op ++ ";" ++ threshold ++ ";;0;".

Definition ceph_bytes_text (threshold read_bytes write_bytes : string) : string :=
  "CEPH IO byte usage is " ++ read_bytes ++ " MB read / "
  ++ write_bytes ++ " MB write per seconds." ++ blanks 8
  ++ "|'ceph byte read per sec'=" ++ read_bytes ++ ";"
  ++ threshold ++ ";;0; 'ceph byte write per sec'="
  ++ write_bytes ++ ";" ++ threshold ++ ";;0;".

(** A version string, or a field of it, without a slash. *)
Definition slash_free (s : string) : Prop := Py.has_char "/"%char s = false.

(** * Properties *)

(** ** Decimal digit count *)

Lemma digits_fuel_grows (fuel : nat) : forall n acc,
  (String.length acc <= String.length (Py.digits_fuel fuel n acc))%nat.
Proof.
  induction fuel as [|f IH]; intros n acc; simpl; [lia|].
  destruct (n <? 10); simpl; [lia|].
  specialize (IH (n / 10) (String (Py.digit_char (n mod 10)) acc)).
  simpl in IH. lia.
Qed.

(** A number below [10^k] has at most [k] digits. *)
Lemma digits_fuel_upper (fuel : nat) : forall (k : nat) n acc,
  (1 <= k)%nat -> 0 <= n < 10 ^ Z.of_nat k ->
  (String.length (Py.digits_fuel fuel n acc) <= k + String.length acc)%nat.
Proof.
  induction fuel as [|f IH]; intros k n acc Hk Hn; simpl; [lia|].
  destruct (Z.ltb_spec n 10) as [Hlt|Hge]; simpl; [lia|].
  destruct k as [|[|k]]; [lia| simpl in Hn; lia |].
  assert (Hdiv : 0 <= n / 10 < 10 ^ Z.of_nat (S k)).
  { split; [apply Z.div_pos; lia|].
    apply Z.div_lt_upper_bound; [lia|].
    replace (Z.of_nat (S (S k))) with (Z.succ (Z.of_nat (S k))) in Hn by lia.
    rewrite Z.pow_succ_r in Hn by lia. lia. }
  specialize (IH (S k) (n / 10) (String (Py.digit_char (n mod 10)) acc)
                 ltac:(lia) Hdiv).
  simpl in IH. lia.
Qed.

(** A number from [10^(k-1)] on has at least [k] digits, given the fuel
    to write them. *)
Lemma digits_fuel_lower (fuel : nat) : forall (k : nat) n acc,
  (1 <= k <= fuel)%nat -> 10 ^ Z.of_nat (k - 1) <= n ->
  (k + String.length acc <= String.length (Py.digits_fuel fuel n acc))%nat.
Proof.
  induction fuel as [|f IH]; intros k n acc Hk Hn; [lia|]. simpl.
  destruct (Z.ltb_spec n 10) as [Hlt|Hge].
  - destruct k as [|[|k]]; simpl; [lia|lia|].
    exfalso.
    replace (Z.of_nat (S (S k) - 1)) with (Z.succ (Z.of_nat k)) in Hn by lia.
    rewrite Z.pow_succ_r in Hn by lia.
    assert (0 < 10 ^ Z.of_nat k) by (apply Z.pow_pos_nonneg; lia). lia.
  - destruct k as [|[|k]]; [lia| |].
    + pose proof (digits_fuel_grows f (n / 10)
                    (String (Py.digit_char (n mod 10)) acc)) as G.
      simpl in G. lia.
    + assert (Hdiv : 10 ^ Z.of_nat (S k - 1) <= n / 10).
      { apply Z.div_le_lower_bound; [lia|].
        replace (Z.of_nat (S (S k) - 1)) with (Z.succ (Z.of_nat (S k - 1))) in Hn by lia.
        rewrite Z.pow_succ_r in Hn by lia. lia. }
      specialize (IH (S k) (n / 10) (String (Py.digit_char (n mod 10)) acc)
                     ltac:(lia) Hdiv).
      simpl in IH. lia.
Qed.

Lemma pow2_le_pow10 (k : nat) : 2 ^ Z.of_nat k <= 10 ^ Z.of_nat k.
Proof.
  apply Z.pow_le_mono_l. lia.
Qed.

Lemma str_int_length_upper (k : nat) (n : Z) :
  (1 <= k)%nat -> 0 <= n < 10 ^ Z.of_nat k ->
  (String.length (Py.str_int n) <= k)%nat.
Proof.
  intros Hk Hn. unfold Py.str_int.
  destruct (Z.ltb_spec n 0) as [Hneg|_]; [lia|].
  unfold Py.str_nonneg.
  pose proof (digits_fuel_upper (S (Z.to_nat (Z.log2 n))) k n "" Hk Hn) as U.
  simpl String.length in U at 2. lia.
Qed.

Lemma str_int_length_lower (k : nat) (n : Z) :
  (1 <= k)%nat -> 10 ^ Z.of_nat (k - 1) <= n ->
  (k <= String.length (Py.str_int n))%nat.
Proof.
  intros Hk Hn.
  assert (Hpos : 0 < n).
  { assert (0 < 10 ^ Z.of_nat (k - 1)) by (apply Z.pow_pos_nonneg; lia). lia. }
  unfold Py.str_int.
  destruct (Z.ltb_spec n 0) as [Hneg|_]; [lia|].
  unfold Py.str_nonneg.
  assert (Hfuel : (k <= S (Z.to_nat (Z.log2 n)))%nat).
  { assert (Z.of_nat (k - 1) <= Z.log2 n).
    { apply Z.log2_le_pow2; [lia|].
      pose proof (pow2_le_pow10 (k - 1)). lia. }
    lia. }
  pose proof (digits_fuel_lower (S (Z.to_nat (Z.log2 n))) k n ""
                (conj Hk Hfuel) Hn) as L.
  simpl String.length in L at 1. lia.
Qed.

Lemma digit_count_magnitude (n : Z) : 0 <= n ->
  (digit_count n < 10 <-> n < 10 ^ 9) /\
  (10 <= digit_count n <= 12 <-> 10 ^ 9 <= n < 10 ^ 12) /\
  (13 <= digit_count n <-> 10 ^ 12 <= n).
Proof.
  intros Hn. unfold digit_count.
  assert (U9 : n < 10 ^ 9 -> (String.length (Py.str_int n) <= 9)%nat).
  { intros H. apply str_int_length_upper; [lia|]. change (Z.of_nat 9) with 9. lia. }
  assert (U12 : n < 10 ^ 12 -> (String.length (Py.str_int n) <= 12)%nat).
  { intros H. apply str_int_length_upper; [lia|]. change (Z.of_nat 12) with 12. lia. }
  assert (L10 : 10 ^ 9 <= n -> (10 <= String.length (Py.str_int n))%nat).
  { intros H. apply str_int_length_lower; [lia|]. exact H. }
  assert (L13 : 10 ^ 12 <= n -> (13 <= String.length (Py.str_int n))%nat).
  { intros H. apply str_int_length_lower; [lia|]. exact H. }
  destruct (Z_lt_le_dec n (10 ^ 9)) as [A|A];
    destruct (Z_lt_le_dec n (10 ^ 12)) as [B|B];
    try (specialize (U9 A)); try (specialize (U12 B));
    try (specialize (L10 A)); try (specialize (L13 B)); lia.
Qed.

(** ** The unit normalizers *)

Lemma check_UOM_unit_exponent (n : Z) :
  check_UOM n =
  (scaled n (unit_exponent (digit_count n)), unit_label (unit_exponent (digit_count n))).
Proof.
  unfold check_UOM, scaled, unit_exponent. fold (digit_count n).
  destruct (Z.ltb_spec (digit_count n) 10) as [H10|H10].
  - reflexivity.
  - destruct (Z.leb_spec (digit_count n) 12) as [H12|H12].
    + destruct (Z.leb_spec 10 (digit_count n)); [|lia]. reflexivity.
    + destruct (Z.leb_spec 13 (digit_count n)); [|lia].
      destruct (Z.leb_spec 10 (digit_count n)); [|lia]. reflexivity.
Qed.

(** C4.  For a non-negative byte count [n], [check_UOM] picks the unit
    from the number of characters of [str(n)]: fewer than 10 digits
    give [round(n/1024^2, 2)] in MB, 10 to 12 digits give
    [round(n/1024^3, 2)] in GB, 13 digits or more give
    [round(n/1024^4, 2)] in TB. *)
Theorem check_UOM_by_digit_count (n : Z) : 0 <= n ->
  let digits := Z.of_nat (String.length (Py.str_int n)) in
  (digits < 10 ->
   check_UOM n = (Py.round (Py.int_div n (1024 ^ 2)) 2, "MB")) /\
  (10 <= digits <= 12 ->
   check_UOM n = (Py.round (Py.int_div n (1024 ^ 3)) 2, "GB")) /\
  (13 <= digits ->
   check_UOM n = (Py.round (Py.int_div n (1024 ^ 4)) 2, "TB")).
Proof.
  intros _ digits. subst digits. fold (digit_count n).
  rewrite check_UOM_unit_exponent. unfold unit_exponent, scaled.
  repeat split; intros H.
  - destruct (Z.ltb_spec (digit_count n) 10); [reflexivity|lia].
  - destruct (Z.ltb_spec (digit_count n) 10); [lia|].
    destruct (Z.leb_spec (digit_count n) 12); [reflexivity|lia].
  - destruct (Z.ltb_spec (digit_count n) 10); [lia|].
    destruct (Z.leb_spec (digit_count n) 12); [lia|reflexivity].
Qed.

Lemma check_UOM_by_digit_count_witness :
  0 <= 8000000000 /\
  check_UOM 8000000000 = (Py.round (Py.int_div 8000000000 (1024 ^ 3)) 2, "GB").
Proof.
  split; [lia|].
  refine (proj1 (proj2 (check_UOM_by_digit_count 8000000000 _)) _).
  - lia.
  - vm_compute. split; discriminate.
Defined.

(** X16.  Read off the magnitude, the unit of [check_UOM] changes at
    [10^9] and at [10^12] bytes, not at powers of 1024: a non-negative
    count below [10^9] is shown in MB, from [10^9] and below [10^12]
    in GB, from [10^12] on in TB. *)
Corollary check_UOM_by_magnitude (n : Z) : 0 <= n ->
  (n < 10 ^ 9 -> check_UOM n = (scaled n 2, "MB")) /\
  (10 ^ 9 <= n < 10 ^ 12 -> check_UOM n = (scaled n 3, "GB")) /\
  (10 ^ 12 <= n -> check_UOM n = (scaled n 4, "TB")).
Proof.
  intros Hn.
  destruct (digit_count_magnitude n Hn) as (M & G & T).
  rewrite check_UOM_unit_exponent. unfold unit_exponent.
  repeat split; intros H.
  - apply M in H.
    destruct (Z.ltb_spec (digit_count n) 10); [reflexivity|lia].
  - apply G in H.
    destruct (Z.ltb_spec (digit_count n) 10); [lia|].
    destruct (Z.leb_spec (digit_count n) 12); [reflexivity|lia].
  - apply T in H.
    destruct (Z.ltb_spec (digit_count n) 10); [lia|].
    destruct (Z.leb_spec (digit_count n) 12); [lia|reflexivity].
Qed.

Lemma check_UOM_by_magnitude_witness :
  check_UOM 1073741824 = (scaled 1073741824 3, "GB").
Proof.
  refine (proj1 (proj2 (check_UOM_by_magnitude 1073741824 _)) _); lia.
Defined.

Example check_UOM_digit_boundary :
  check_UOM 999999999 = (95367 # 100, "MB") /\
  check_UOM 1000000000 = (93 # 100, "GB") /\
  check_UOM 131072 = (3 # 25, "MB").
Proof. vm_compute. repeat split. Qed.

(** C9.  [get_common_unit] takes the unit from the digit count of the
    total alone, divides used and total by the one divisor of that
    unit and rounds both to two decimals; its total and its unit are
    those [check_UOM] returns for the total. *)
Theorem get_common_unit_follows_total (used_number total_number : Z) :
  let e := unit_exponent (Z.of_nat (String.length (Py.str_int total_number))) in
  get_common_unit used_number total_number =
    (Py.round (Py.int_div used_number (1024 ^ e)) 2,
     Py.round (Py.int_div total_number (1024 ^ e)) 2,
     unit_label e)
  /\ check_UOM total_number = (snd (fst (get_common_unit used_number total_number)),
                               snd (get_common_unit used_number total_number)).
Proof.
  intros e. subst e.
  assert (E : get_common_unit used_number total_number =
              (scaled used_number (unit_exponent (digit_count total_number)),
               scaled total_number (unit_exponent (digit_count total_number)),
               unit_label (unit_exponent (digit_count total_number)))).
  { unfold get_common_unit, scaled, unit_exponent. fold (digit_count total_number).
    destruct (Z.ltb_spec (digit_count total_number) 10) as [H10|H10].
    - reflexivity.
    - destruct (Z.leb_spec (digit_count total_number) 12) as [H12|H12].
      + destruct (Z.leb_spec 10 (digit_count total_number)); [|lia]. reflexivity.
      + destruct (Z.leb_spec 13 (digit_count total_number)); [|lia].
        destruct (Z.leb_spec 10 (digit_count total_number)); [|lia]. reflexivity. }
  fold (digit_count total_number). split.
  - exact E.
  - rewrite E. simpl. apply check_UOM_unit_exponent.
Qed.

(** ** The aggregator *)

Lemma filter_none {A} (p : A -> bool) (l : list A) :
  existsb p l = false -> filter p l = [].
Proof.
  induction l as [|x l IH]; simpl; [reflexivity|].
  destruct (p x); simpl; [discriminate|exact IH].
Qed.

Lemma guarded_filter {A} (p : A -> bool) (l : list A) :
  (if existsb p l then filter p l else []) = filter p l.
Proof.
  destruct (existsb p l) eqn:E; [reflexivity|].
  symmetry. apply filter_none, E.
Qed.

Lemma check_exitcodes_printed (result_list : list string) :
  printed (check_exitcodes result_list) =
    (filter (Py.contains "CRITICAL") result_list
     ++ filter (Py.contains "WARNING") result_list
     ++ filter (Py.contains "OK -") result_list)%list.
Proof.
  unfold check_exitcodes, Py.any_contains. simpl.
  rewrite !guarded_filter. reflexivity.
Qed.

(** C1, as stated, fails: a storage run at thresholds 70 and 80 over
    one store at 10 %, one at 95 % and one that is not active collects
    an OK, a CRITICAL and a WARNING finding, and all three lines are
    printed, the CRITICAL one first, where the description keeps the
    CRITICAL line alone. *)
Lemma check_exitcodes_prints_every_severity :
  Py.any_contains "CRITICAL" (check_storage 70 80 [] [] [] three_stores) = true /\
  check_exitcodes (check_storage 70 80 [] [] [] three_stores) =
    {| printed :=
         ["CRITICAL - backup disk usage (type: nfs) is 95.0 % (9.5 GB / 10.0 GB)."
          ++ blanks 24 ++ "|backup=9.5GB;7.0;8.0;0;10.0";
          "WARNING - tank disk is not active!";
          "OK - local disk usage (type: dir) is 10.0 % (1.0 GB / 10.0 GB)."
          ++ blanks 24 ++ "|local=1.0GB;7.0;8.0;0;10.0"];
       exit_code := 2 |} /\
  printed (winning_findings (check_storage 70 80 [] [] [] three_stores)) =
    ["CRITICAL - backup disk usage (type: nfs) is 95.0 % (9.5 GB / 10.0 GB)."
     ++ blanks 24 ++ "|backup=9.5GB;7.0;8.0;0;10.0"] /\
  printed (check_exitcodes (check_storage 70 80 [] [] [] three_stores)) <>
  printed (winning_findings (check_storage 70 80 [] [] [] three_stores)).
Proof.
  repeat split; try reflexivity.
  vm_compute. discriminate.
Qed.

(** C1, amended.  [check_exitcodes] prints the lines that contain
    CRITICAL, then the lines that contain WARNING, then the lines that
    contain [OK -], each group in list order; the exit status is 2 when
    some line contains CRITICAL, else 1 when some line contains
    WARNING, else 0, which is the status of the winning severity. *)
Theorem check_exitcodes_groups_by_severity (result_list : list string) :
  printed (check_exitcodes result_list) =
    (filter (Py.contains "CRITICAL") result_list
     ++ filter (Py.contains "WARNING") result_list
     ++ filter (Py.contains "OK -") result_list)%list
  /\ exit_code (check_exitcodes result_list) =
       (if existsb (Py.contains "CRITICAL") result_list then 2
        else if existsb (Py.contains "WARNING") result_list then 1 else 0)
  /\ exit_code (check_exitcodes result_list) = exit_code (winning_findings result_list).
Proof.
  split; [apply check_exitcodes_printed|].
  unfold check_exitcodes, winning_findings, Py.any_contains. simpl.
  split; [reflexivity|].
  destruct (existsb (Py.contains "CRITICAL") result_list); [reflexivity|].
  destruct (existsb (Py.contains "WARNING") result_list); reflexivity.
Qed.

(** No finding at the winning severity is dropped. *)
Lemma check_exitcodes_prints_all (result_list : list string) (x : string) :
  In x result_list ->
  Py.contains "CRITICAL" x = true \/ Py.contains "WARNING" x = true
  \/ Py.contains "OK -" x = true ->
  In x (printed (check_exitcodes result_list)).
Proof.
  intros Hin H.
  rewrite check_exitcodes_printed, !in_app_iff, !filter_In. tauto.
Qed.

(** ** Services *)

Section Services.

Local Abbreviation warn := service_warning_message.
Local Abbreviation ok := services_ok_message.

Lemma service_warning_marked (e : service) :
  Py.contains "WARNING" (warn e) = true /\ Py.contains "WARNING -" (warn e) = true.
Proof. split; reflexivity. Qed.

Lemma services_ok_unmarked :
  Py.contains "WARNING" ok = false /\ Py.contains "WARNING -" ok = false.
Proof. split; reflexivity. Qed.

Lemma any_warning_map (fs : list service) :
  fs <> [] -> Py.any_contains "WARNING" (map warn fs) = true.
Proof.
  destruct fs as [|e fs]; [congruence|]. intros _. reflexivity.
Qed.

Lemma filter_warning_map (fs : list service) :
  filter (Py.contains "WARNING -") (map warn fs) = map warn fs.
Proof.
  induction fs as [|e fs IH]; [reflexivity|].
  cbn [map filter]. rewrite (proj2 (service_warning_marked e)), IH. reflexivity.
Qed.

Lemma any_warning_repeat_ok (n : nat) :
  Py.any_contains "WARNING" (repeat ok n) = false.
Proof.
  induction n as [|n IH]; [reflexivity|].
  cbn [repeat]. unfold Py.any_contains in *. cbn [existsb].
  rewrite IH, (proj1 services_ok_unmarked). reflexivity.
Qed.

Lemma filter_warning_repeat_ok (n : nat) :
  filter (Py.contains "WARNING -") (repeat ok n) = [].
Proof.
  induction n as [|n IH]; [reflexivity|].
  cbn [repeat filter]. rewrite (proj2 services_ok_unmarked). exact IH.
Qed.

(** Once a warning is in the list, the list is the warnings so far. *)
Lemma services_step_warned (fs : list service) (e : service) :
  fs <> [] ->
  services_step (map warn fs) e =
  map warn (fs ++ if service_is_faulty e then [e] else []).
Proof.
  intros Hne. unfold services_step, list_append.
  destruct (service_is_faulty e).
  - assert (E : (map warn fs ++ [service_warning_message e])%list = map warn (fs ++ [e]))
      by (rewrite map_app; reflexivity).
    rewrite E, any_warning_map, filter_warning_map; [reflexivity|].
    destruct fs; simpl; congruence.
  - rewrite (any_warning_map fs Hne). cbn [negb].
    rewrite (any_warning_map fs Hne), filter_warning_map, app_nil_r. reflexivity.
Qed.

(** Until then it holds the OK line once per record seen. *)
Lemma services_step_clean (n : nat) (e : service) :
  services_step (repeat ok n) e =
  if service_is_faulty e then [warn e] else repeat ok (S n).
Proof.
  unfold services_step, list_append.
  destruct (service_is_faulty e).
  - unfold Py.any_contains. rewrite existsb_app. cbn [existsb].
    rewrite (proj1 (service_warning_marked e)). cbn [orb]. rewrite orb_true_r.
    rewrite filter_app, filter_warning_repeat_ok. cbn [filter app].
    rewrite (proj2 (service_warning_marked e)). reflexivity.
  - rewrite any_warning_repeat_ok. cbn [negb].
    assert (E : (repeat ok n ++ [services_ok_message])%list = repeat ok (S n))
      by (symmetry; apply (repeat_cons n ok)).
    rewrite E, any_warning_repeat_ok. reflexivity.
Qed.

Lemma services_fold_warned (payload : list service) : forall fs,
  fs <> [] ->
  fold_left services_step payload (map warn fs) =
  map warn (fs ++ filter service_is_faulty payload).
Proof.
  induction payload as [|e payload IH]; intros fs Hne; cbn [fold_left filter].
  - rewrite app_nil_r. reflexivity.
  - rewrite services_step_warned by exact Hne.
    rewrite IH by (destruct fs; simpl; congruence).
    rewrite <- app_assoc. destruct (service_is_faulty e); reflexivity.
Qed.

Lemma services_fold_clean (payload : list service) : forall n,
  fold_left services_step payload (repeat ok n) =
  match filter service_is_faulty payload with
  | [] => repeat ok (n + length payload)
  | fs => map warn fs
  end.
Proof.
  induction payload as [|e payload IH]; intros n; cbn [fold_left filter length].
  - rewrite Nat.add_0_r. reflexivity.
  - rewrite services_step_clean. destruct (service_is_faulty e).
    + change [warn e] with (map warn [e]).
      rewrite services_fold_warned by congruence. reflexivity.
    + rewrite IH. replace (S n + length payload)%nat with (n + S (length payload))%nat by lia.
      reflexivity.
Qed.

End Services.

Lemma service_is_faulty_spec (e : service) :
  service_is_faulty e = true <-> service_faulty e.
Proof.
  unfold service_is_faulty, service_faulty.
  rewrite andb_true_iff, orb_true_iff, !negb_true_iff.
  rewrite !String.eqb_neq. reflexivity.
Qed.

(** C2, as stated, fails: a record that is running but not active draws
    a WARNING, although it is not both not running and not active. *)
Lemma check_services_warns_running_inactive :
  service_faulty_conjunctive running_but_failed = false /\
  check_services [] [running_but_failed] =
    ["WARNING - PVE API Proxy Server (pveproxy) is running."] /\
  check_exitcodes (check_services [] [running_but_failed]) =
    {| printed := ["WARNING - PVE API Proxy Server (pveproxy) is running."];
       exit_code := 1 |}.
Proof. repeat split. Qed.

(** C2, amended.  The findings of a services run are exactly: one
    WARNING line for every record that is not running or not active,
    and whose unit-state is not [not-found]; and, when the payload is
    not empty and no record is of that kind, the one OK line. *)
Theorem check_services_findings (payload : list service) (line : string) :
  In line (check_services [] payload) <->
  (exists e, In e payload /\ service_faulty e /\ line = service_warning_message e)
  \/ (line = services_ok_message /\ payload <> []
      /\ forall e, In e payload -> ~ service_faulty e).
Proof.
  unfold check_services, to_set. rewrite nodup_In.
  change (@nil string) with (repeat services_ok_message 0).
  rewrite services_fold_clean.
  destruct (filter service_is_faulty payload) as [|f fs] eqn:F.
  - split.
    + intros Hin. apply repeat_spec in Hin as Hline. right.
      split; [exact Hline|]. split.
      * destruct payload; [destruct Hin|congruence].
      * intros e He Hf. apply service_is_faulty_spec in Hf.
        assert (In e (filter service_is_faulty payload))
          by (apply filter_In; auto).
        rewrite F in H. destruct H.
    + intros [(e & He & Hf & _) | (Hline & Hne & _)].
      * apply service_is_faulty_spec in Hf.
        assert (In e (filter service_is_faulty payload))
          by (apply filter_In; auto).
        rewrite F in H. destruct H.
      * subst line. destruct payload as [|e payload]; [congruence|].
        simpl. left. reflexivity.
  - rewrite <- F. rewrite in_map_iff. split.
    + intros (e & Hline & He). apply filter_In in He as (He & Hf).
      left. exists e. rewrite <- service_is_faulty_spec. auto.
    + intros [(e & He & Hf & Hline) | (_ & _ & Hall)].
      * exists e. split; [auto|]. apply filter_In.
        rewrite service_is_faulty_spec. auto.
      * exfalso. assert (Hin : In f (filter service_is_faulty payload))
          by (rewrite F; left; reflexivity).
        apply filter_In in Hin as (Hin & Hf).
        apply (Hall f Hin), service_is_faulty_spec, Hf.
Qed.

(** ** The three-way threshold split *)

(** The [if]/[elif]/[elif] chain has no gap: one of the three branches
    is always taken. *)
Lemma three_way_verdict (warning critical : Z) (value : Q) (message : string) :
  three_way warning critical value message =
  Some (output (verdict warning critical value) message).
Proof.
  unfold three_way, verdict, Py.int_le_float, Py.float_le_int, Py.float_lt_int.
  destruct (Qle_bool (inject_Z critical) value) eqn:C; [reflexivity|].
  destruct (Qle_bool (inject_Z warning) value) eqn:W; cbn [andb negb]; [|reflexivity].
  assert (L : Qle_bool value (inject_Z critical) = true).
  { apply Qle_bool_iff, Qlt_le_weak, Qnot_le_lt.
    intros H. apply Qle_bool_iff in H. congruence. }
  rewrite L. reflexivity.
Qed.

Lemma verdict_cases (warning critical : Z) (value : Q) :
  warning < critical ->
  ((inject_Z critical <= value)%Q -> verdict warning critical value = CRITICAL) /\
  ((inject_Z warning <= value)%Q /\ (value < inject_Z critical)%Q ->
   verdict warning critical value = WARNING) /\
  ((value < inject_Z warning)%Q -> verdict warning critical value = OK).
Proof.
  intros Hwc. unfold verdict. repeat split.
  - intros H. apply Qle_bool_iff in H. rewrite H. reflexivity.
  - intros (Hw & Hc).
    destruct (Qle_bool (inject_Z critical) value) eqn:C.
    + apply Qle_bool_iff in C. exfalso. apply (Qlt_not_le _ _ Hc C).
    + apply Qle_bool_iff in Hw. rewrite Hw. reflexivity.
  - intros Hw.
    assert (Hc : (value < inject_Z critical)%Q).
    { eapply Qlt_trans; [exact Hw|]. rewrite <- Zlt_Qlt. exact Hwc. }
    destruct (Qle_bool (inject_Z critical) value) eqn:C.
    + apply Qle_bool_iff in C. exfalso. apply (Qlt_not_le _ _ Hc C).
    + destruct (Qle_bool (inject_Z warning) value) eqn:W; [|reflexivity].
      apply Qle_bool_iff in W. exfalso. apply (Qlt_not_le _ _ Hw W).
Qed.

(** [round] does not see how a rational is written. *)
Lemma round_half_even_comp (x y : Q) :
  (x == y)%Q -> Fl.nearest_even x = Fl.nearest_even y.
Proof.
  intros H. unfold Fl.nearest_even.
  assert (F : Qfloor x = Qfloor y) by (apply Qfloor_comp, H).
  assert (C : Qcompare (x - inject_Z (Qfloor x)) (1 # 2)
              = Qcompare (y - inject_Z (Qfloor y)) (1 # 2)).
  { rewrite F. apply Qcompare_comp; [rewrite H|]; reflexivity. }
  rewrite C, F. reflexivity.
Qed.


(** ** cpu *)

(** C5, as stated, fails: the tests are made on [round(c*100, 2)], not
    on [c*100].  For [c = 6963/8192 = 0.8499755859375] the product
    84.99755859375 lies below the critical threshold 85, yet the
    rounded usage is 85.0 and the run is CRITICAL. *)
Lemma check_cpu_tests_rounded_usage :
  (((6963 # 8192) * 100 < 85)%Q) /\
  ((65 <= (6963 # 8192) * 100)%Q) /\
  cpu_verdict_unrounded 65 85 (6963 # 8192) = WARNING /\
  check_cpu 65 85 (status_of_cpu (6963 # 8192)) =
    Some {| printed := ["CRITICAL - CPU usage is 85.0 %. |usage=85.0%;65;85;0;100"];
            exit_code := 2 |}.
Proof.
  split; [reflexivity|]. split; [vm_compute; discriminate|].
  split; vm_compute; reflexivity.
Qed.

(** C5, amended.  The usage is [round(c*100, 2)], the product taken
    in binary64 when [c] is a float and in the integers when [c] is an
    [int] (the usage is then an [int] and printed as one).  With
    thresholds [warning < critical], as [parse_args] admits them,
    [check_cpu] leaves through [output] with CRITICAL when
    [critical <= usage], with WARNING when [warning <= usage < critical],
    with OK when [usage < warning].  The run on the payload
    [{"cpu": 0.90}] with 65 and 85 sends one request, prints the one
    CRITICAL line and exits with 2. *)
Theorem check_cpu_verdict :
  (forall (warning critical : Z) (s : node_status),
     warning < critical ->
     let cpu_usage :=
       match st_cpu s with
       | JInt n => PyInt (n * 100)
       | JFloat c => PyFloat (Py.round (Fl.mul (Fl.fl c) 100) 2)
       end in
     let usage := number_value cpu_usage in
     let message := cpu_message warning critical cpu_usage in
     ((inject_Z critical <= usage)%Q ->
      check_cpu warning critical s = Some (output CRITICAL message)) /\
     ((inject_Z warning <= usage)%Q /\ (usage < inject_Z critical)%Q ->
      check_cpu warning critical s = Some (output WARNING message)) /\
     ((usage < inject_Z warning)%Q ->
      check_cpu warning critical s = Some (output OK message)))
  /\ run (token_options cpu (Some 65) (Some 85))
         (answers (NodeStatus (status_of_cpu 0.90))) =
     ([Get "https://pve.mydomain.com:8006/api2/json/nodes/pve1/status"],
      Exit {| printed := ["CRITICAL - CPU usage is 90.0 %. |usage=90.0%;65;85;0;100"];
              exit_code := 2 |}).
Proof.
  split; [|vm_compute; reflexivity].
  intros warning critical s Hwc cpu_usage usage message.
  assert (E : check_cpu warning critical s =
              Some (output (verdict warning critical usage) message)).
  { unfold check_cpu. rewrite three_way_verdict.
    subst message usage cpu_usage. unfold cpu_usage_of.
    destruct (st_cpu s); reflexivity. }
  destruct (verdict_cases warning critical usage Hwc) as (C & W & O).
  rewrite E. repeat split; intros H.
  - rewrite (C H). reflexivity.
  - rewrite (W H). reflexivity.
  - rewrite (O H). reflexivity.
Qed.

Lemma check_cpu_verdict_witness :
  65 < 85 /\
  check_cpu 65 85 (status_of_cpu 0.70) =
    Some {| printed := ["WARNING - CPU usage is 70.0 %. |usage=70.0%;65;85;0;100"];
            exit_code := 1 |}.
Proof.
  split; [lia|].
  refine (proj1 (proj2 (proj1 check_cpu_verdict 65 85 (status_of_cpu 0.70) _)) _).
  - lia.
  - split; vm_compute; [discriminate|reflexivity].
Defined.

(** The product is rounded before [round] sees it: the float nearest
    to 0.49995 times 100 is 49.994999999999997, not 49.995. *)
Example check_cpu_product_in_binary64 :
  check_cpu 50 90 (status_of_cpu 0.49995) =
  Some {| printed := ["OK - CPU usage is 49.99 %. |usage=49.99%;50;90;0;100"];
          exit_code := 0 |}.
Proof. vm_compute. reflexivity. Qed.

(** An idle node whose API answers with the integer 0. *)
Example check_cpu_integer_reading :
  check_cpu 65 85
    {| st_cpu := JInt 0;
       st_memory := {| used := 0; total := 0 |};
       st_swap := {| used := 0; total := 0 |} |} =
  Some {| printed := ["OK - CPU usage is 0 %. |usage=0%;65;85;0;100"];
          exit_code := 0 |}.
Proof. vm_compute. reflexivity. Qed.

(** ** memory and swap *)

(** C6, as stated, fails: the percentage is taken from the two GB
    figures after each was rounded to one decimal.  With 1030000000
    of 1100000000 bytes used, both figures round to 1.0 GB, the
    percentage is 100.0 and the run CRITICAL at thresholds 80 and 95,
    where the ratio of the readings, 93.6 %, stays below 95. *)
Lemma check_memory_percent_of_rounded_figures :
  ((memory_percent_of_readings nearly_full < 95)%Q) /\
  memory_verdict_of_readings 80 95 nearly_full = WARNING /\
  check_memory 80 95 nearly_full "memory" =
    Some {| printed :=
              ["CRITICAL - memory usage is 100.0 % (1.0 GB / 1.0 GB)!"
               ++ blanks 16 ++ "|usage=1.0GB;0.8;0.95;0;1.0"];
            exit_code := 2 |}.
Proof.
  split; [reflexivity|]. split; vm_compute; reflexivity.
Qed.

(** C6, amended.  [check_memory] reports used and total in GB, each
    rounded to one decimal: [U = round(used/1024^3, 1)] and
    [T = round(total/1024^3, 1)].  The percentage is taken from these
    two rounded figures in binary64, [round(U/T*100, 2)] when [T] is
    not 0 and [round(U/1*100, 2)] when [T] is 0, and with
    [warning < critical] the finding printed is CRITICAL when
    [critical <= percent], WARNING when [warning <= percent < critical],
    OK when [percent < warning].  [check_swap] is [check_memory] on
    the swap figures. *)
Theorem check_memory_verdict (warning critical : Z) (sub : used_total)
    (subcommand_s : string) :
  warning < critical ->
  let U := Py.round (Py.int_div (used sub) (1024 ^ 3)) 1 in
  let T := Py.round (Py.int_div (total sub) (1024 ^ 3)) 1 in
  let percent :=
    if Qeq_bool (Fl.fl T) 0
    then Py.round (Fl.mul (Fl.div (Fl.fl U) 1) 100) 2
    else Py.round (Fl.mul (Fl.div (Fl.fl U) (Fl.fl T)) 100) 2 in
  let message := memory_message warning critical subcommand_s U T percent in
  ((inject_Z critical <= Fl.fl percent)%Q ->
   check_memory warning critical sub subcommand_s = Some (output CRITICAL message)) /\
  ((inject_Z warning <= Fl.fl percent)%Q /\ (Fl.fl percent < inject_Z critical)%Q ->
   check_memory warning critical sub subcommand_s = Some (output WARNING message)) /\
  ((Fl.fl percent < inject_Z warning)%Q ->
   check_memory warning critical sub subcommand_s = Some (output OK message)) /\
  check_swap warning critical sub subcommand_s =
  check_memory warning critical sub subcommand_s.
Proof.
  intros Hwc U T percent message.
  assert (E : check_memory warning critical sub subcommand_s =
              Some (output (verdict warning critical (Fl.fl percent)) message)).
  { unfold check_memory. rewrite three_way_verdict. reflexivity. }
  destruct (verdict_cases warning critical (Fl.fl percent) Hwc) as (C & W & O).
  split; [|split; [|split]].
  - intros H. rewrite E, (C H). reflexivity.
  - intros H. rewrite E, (W H). reflexivity.
  - intros H. rewrite E, (O H). reflexivity.
  - reflexivity.
Qed.

Lemma check_memory_verdict_witness :
  80 < 95 /\
  check_memory 80 95 {| used := 4294967296; total := 8589934592 |} "swap" =
    Some {| printed :=
              ["OK - swap usage is 50.0 % (4.0 GB / 8.0 GB)!"
               ++ blanks 16 ++ "|usage=4.0GB;6.4;7.6;0;8.0"];
            exit_code := 0 |}.
Proof.
  split; [lia|].
  refine (proj1 (proj2 (proj2
    (check_memory_verdict 80 95 {| used := 4294967296; total := 8589934592 |}
       "swap" _))) _).
  - lia.
  - vm_compute. reflexivity.
Defined.

(** The scaled thresholds are binary64 products: for half a GB of swap
    [(0.5/100)*65] is 0.32500000000000001 and rounds to 0.33, while
    [(0.5/100)*85] is 0.42499999999999999 and rounds to 0.42. *)
Example check_memory_thresholds_in_binary64 :
  check_memory 65 85 {| used := 107374182; total := 536870912 |} "swap" =
  Some {| printed :=
            ["OK - swap usage is 20.0 % (0.1 GB / 0.5 GB)!"
             ++ blanks 16 ++ "|usage=0.1GB;0.33;0.42;0;0.5"];
          exit_code := 0 |}.
Proof. vm_compute. reflexivity. Qed.

(** So is the percentage: [0.3/3.2*100] is 9.3749999999999982. *)
Example memory_percent_in_binary64 :
  memory_percent (3 # 10) (32 # 10) = (937 # 100)%Q.
Proof. vm_compute. reflexivity. Qed.

(** ** disks_health *)

(** C3.  A disk with health FAILED does produce the WARNING line of the
    description, but the filter at the end of the loop body keeps only
    lines that carry both [WARNING -] and [CRITICAL -], so the line is
    dropped at once: the run on the failed disk alone prints nothing
    and exits with 0, and with a healthy disk after it the run prints
    the OK line and exits with 0. *)
Theorem disks_health_drops_failed_disk :
  disk_failed_message failed_disk =
    "WARNING - ATA - Samsung SSD 860 type: ssd on /dev/sda is failed: FAILED"
  /\ disks_health_step 20 10 [] failed_disk = []
  /\ run (token_options disks_health (Some 20) (Some 10))
         (answers (DisksList [failed_disk])) =
     ([Get "https://pve.mydomain.com:8006/api2/json/nodes/pve1/disks/list"],
      Exit {| printed := []; exit_code := 0 |})
  /\ run (token_options disks_health (Some 20) (Some 10))
         (answers (DisksList [failed_disk; passed_disk])) =
     ([Get "https://pve.mydomain.com:8006/api2/json/nodes/pve1/disks/list"],
      Exit {| printed := ["OK - All disks are healthy."]; exit_code := 0 |}).
Proof. repeat split. Qed.

(** The loss does not depend on the example: whatever the thresholds,
    the WARNING line of a disk in bad health is dropped in the step that
    appends it, unless the disk's own fields spell [CRITICAL -]. *)
Lemma disks_health_step_drops_warning (warning critical : Z) (d : disk) :
  health_is_bad (health d) = true ->
  Py.contains "CRITICAL -" (disk_failed_message d) = false ->
  disks_health_step warning critical [] d = [].
Proof.
  intros Hbad Hno. unfold disks_health_step. rewrite Hbad.
  cbn [list_append app]. unfold Py.any_contains. cbn [existsb filter].
  assert (W : Py.contains "WARNING" (disk_failed_message d) = true) by reflexivity.
  rewrite W, Hno, andb_false_r. reflexivity.
Qed.

(** The healthy half of the scenario holds. *)

Section DisksHealthy.

Variables warning critical : Z.
Hypothesis thresholds_descending : critical < warning.

Lemma disks_ok_unmarked :
  Py.contains "WARNING" disks_ok_message = false /\
  Py.contains "CRITICAL" disks_ok_message = false.
Proof. split; reflexivity. Qed.

Lemma any_warning_repeat_disks_ok (n : nat) :
  Py.any_contains "WARNING" (repeat disks_ok_message n) = false.
Proof.
  induction n as [|n IH]; [reflexivity|].
  cbn [repeat]. unfold Py.any_contains in *. cbn [existsb].
  rewrite IH, (proj1 disks_ok_unmarked). reflexivity.
Qed.

Lemma disks_baseline_clean (n : nat) :
  disks_baseline (repeat disks_ok_message n) = repeat disks_ok_message (S n).
Proof.
  unfold disks_baseline, list_append.
  rewrite any_warning_repeat_disks_ok. cbn [negb orb].
  symmetry. apply (repeat_cons n disks_ok_message).
Qed.

Lemma disks_health_step_healthy (n : nat) (d : disk) :
  disk_healthy warning d ->
  disks_health_step warning critical (repeat disks_ok_message n) d =
  repeat disks_ok_message (S n).
Proof.
  intros (Hh & Hw). unfold disks_health_step. rewrite Hh.
  destruct (wearout d) as [w|s].
  - destruct (Z.leb_spec w warning); [lia|]. cbn [andb].
    destruct (Z.leb_spec w critical); [lia|].
    rewrite disks_baseline_clean, any_warning_repeat_disks_ok. reflexivity.
  - rewrite disks_baseline_clean, any_warning_repeat_disks_ok. reflexivity.
Qed.

Lemma disks_fold_healthy (payload : list disk) : forall n,
  Forall (disk_healthy warning) payload ->
  fold_left (disks_health_step warning critical) payload (repeat disks_ok_message n) =
  repeat disks_ok_message (n + length payload).
Proof.
  induction payload as [|d payload IH]; intros n Hall; cbn [fold_left length].
  - rewrite Nat.add_0_r. reflexivity.
  - inversion Hall as [|? ? Hd Hrest]; subst.
    rewrite disks_health_step_healthy by exact Hd.
    rewrite IH by exact Hrest. f_equal. lia.
Qed.

Lemma to_set_repeat (x : string) (n : nat) : to_set (repeat x (S n)) = [x].
Proof.
  unfold to_set. induction n as [|n IH]; [reflexivity|].
  change (repeat x (S (S n))) with (x :: repeat x (S n)).
  cbn [nodup]. destruct (in_dec string_dec x (repeat x (S n))) as [_|Hn].
  - exact IH.
  - exfalso. apply Hn. left. reflexivity.
Qed.

(** X12.  With thresholds [critical < warning], a payload of at least
    one disk in which every disk is healthy (health OK, PASSED or
    UNKNOWN; wearout no number or above the warning threshold) ends in
    the one line [OK - All disks are healthy.] and status 0, however
    many disks there are. *)
Lemma disks_health_all_healthy (payload : list disk) :
  payload <> [] -> Forall (disk_healthy warning) payload ->
  check_exitcodes (check_disks_health warning critical [] payload) =
  {| printed := ["OK - All disks are healthy."]; exit_code := 0 |}.
Proof.
  intros Hne Hall. unfold check_disks_health.
  change (@nil string) with (repeat disks_ok_message 0).
  rewrite disks_fold_healthy by exact Hall.
  destruct payload as [|d payload]; [congruence|].
  cbn [length Nat.add]. rewrite to_set_repeat. reflexivity.
Qed.

End DisksHealthy.

Lemma disks_health_all_healthy_witness :
  check_exitcodes
    (check_disks_health 20 10 []
       [passed_disk;
        {| vendor := "ATA     "; model := "Samsung SSD 860"; disk_type := "ssd";
           devpath := "/dev/sdc"; health := "PASSED"; wearout := WearInt 97 |}]) =
  {| printed := ["OK - All disks are healthy."]; exit_code := 0 |}.
Proof.
  refine (disks_health_all_healthy 20 10 _ _ _ _).
  - lia.
  - discriminate.
  - apply Forall_cons; [split; [reflexivity|exact I]|].
    apply Forall_cons; [split; [reflexivity|simpl; lia]|].
    apply Forall_nil.
Defined.

(** ** Threshold validation *)

Lemma is_ascending_spec (s : subcommand_t) :
  is_ascending s = true <-> In s ascending_subcommands.
Proof.
  unfold ascending_subcommands. destruct s; simpl; split; intros H;
    try reflexivity; try discriminate; try tauto;
    repeat (destruct H as [H|H]; try discriminate H); destruct H.
Qed.

(** C7.  A configuration with [warning >= critical] for cpu, memory,
    storage or swap, or with [critical >= warning] for disks_health,
    ends in the usage error of [parse_args]; the run has then sent no
    request. *)
Theorem bad_thresholds_rejected_before_any_request
    (o : options) (net : network) (warning critical : Z) :
  threshold_warning o = Some warning ->
  threshold_critical o = Some critical ->
  (In (subcommand o) ascending_subcommands /\ warning >= critical ->
   run o net =
   ([], UsageError ("--warning threshold must be lower then --critical threshold for '"
                    ++ subcommand_name (subcommand o) ++ "' subcommand!")))
  /\
  (subcommand o = disks_health /\ critical >= warning ->
   run o net =
   ([], UsageError ("--warning threshold must be higher then --critical threshold for '"
                    ++ subcommand_name (subcommand o) ++ "' subcommand!"))).
Proof.
  intros Hw Hc. split.
  - intros (Hs & Hge). apply is_ascending_spec in Hs.
    unfold run, parse_args, check_thresholds_scale. rewrite Hw, Hc, Hs.
    cbn [is_None orb andb String.eqb Ascii.eqb Bool.eqb py_lt].
    rewrite andb_false_r.
    destruct (Z.ltb_spec warning critical); [lia|]. reflexivity.
  - intros (Hs & Hge).
    unfold run, parse_args, check_thresholds_scale. rewrite Hw, Hc, Hs.
    cbn [is_None orb andb is_ascending is_disks_health needs_thresholds
         String.eqb Ascii.eqb Bool.eqb py_lt is_False].
    destruct (Z.ltb_spec critical warning); [lia|]. reflexivity.
Qed.

Lemma bad_thresholds_rejected_before_any_request_witness :
  run (token_options storage (Some 85) (Some 85)) (answers (StorageList [])) =
  ([], UsageError "--warning threshold must be lower then --critical threshold for 'storage' subcommand!")
  /\
  run (token_options disks_health (Some 10) (Some 20)) (answers (DisksList [])) =
  ([], UsageError "--warning threshold must be higher then --critical threshold for 'disks_health' subcommand!").
Proof.
  split.
  - refine (proj1 (bad_thresholds_rejected_before_any_request
                     (token_options storage (Some 85) (Some 85))
                     (answers (StorageList [])) 85 85 _ _) _).
    + reflexivity.
    + reflexivity.
    + split; [simpl; tauto | lia].
  - refine (proj2 (bad_thresholds_rejected_before_any_request
                     (token_options disks_health (Some 10) (Some 20))
                     (answers (DisksList [])) 10 20 _ _) _).
    + reflexivity.
    + reflexivity.
    + split; [reflexivity | lia].
Defined.

(** Thresholds in the right order pass, and a request follows. *)
Lemma good_thresholds_accepted (o : options) (warning critical : Z) :
  threshold_warning o = Some warning ->
  threshold_critical o = Some critical ->
  (In (subcommand o) ascending_subcommands /\ warning < critical)
  \/ (subcommand o = disks_health /\ critical < warning) ->
  parse_args o = Parsed o.
Proof.
  intros Hw Hc [(Hs & Hlt) | (Hs & Hlt)].
  - apply is_ascending_spec in Hs.
    unfold parse_args, check_thresholds_scale. rewrite Hw, Hc, Hs.
    cbn [is_None orb andb String.eqb Ascii.eqb Bool.eqb py_lt].
    rewrite andb_false_r.
    destruct (Z.ltb_spec warning critical); [|lia]. cbn [is_False].
    assert (D : is_disks_health (subcommand o) = false)
      by (destruct (subcommand o); try reflexivity; discriminate Hs).
    rewrite D. reflexivity.
  - unfold parse_args, check_thresholds_scale. rewrite Hw, Hc, Hs.
    cbn [is_None orb andb is_ascending is_disks_health needs_thresholds
         String.eqb Ascii.eqb Bool.eqb py_lt is_False].
    destruct (Z.ltb_spec critical warning); [|lia]. reflexivity.
Qed.

(** ** storage: the two disk lists *)

Section StorageFilters.

Variables warning critical : Z.

Lemma storage_step_include (include ignore rl : list string) (s : storage_t) :
  include <> [] ->
  storage_step warning critical include ignore rl s =
  if name_in (storage_name s) include
  then check_storage_inside warning critical rl s else rl.
Proof.
  intros Hne. unfold storage_step.
  destruct include as [|x include]; [congruence|]. reflexivity.
Qed.

Lemma storage_step_ignore (ignore rl : list string) (s : storage_t) :
  storage_step warning critical [] ignore rl s =
  if name_in (storage_name s) ignore
  then rl else check_storage_inside warning critical rl s.
Proof.
  unfold storage_step. cbn [length Nat.ltb Nat.leb].
  destruct (name_in (storage_name s) ignore); reflexivity.
Qed.

Lemma check_storage_ignore_idle (include : list string) (payload : list storage_t) :
  include <> [] ->
  forall ignore1 ignore2 rl,
    check_storage warning critical include ignore1 rl payload =
    check_storage warning critical include ignore2 rl payload.
Proof.
  intros Hne ignore1 ignore2. unfold check_storage.
  induction payload as [|s payload IH]; intros rl; cbn [fold_left]; [reflexivity|].
  rewrite (storage_step_include include ignore1 rl s Hne).
  rewrite (storage_step_include include ignore2 rl s Hne).
  apply IH.
Qed.

Lemma storage_step_skipped (include ignore rl : list string) (s : storage_t) :
  storage_skipped include ignore s ->
  storage_step warning critical include ignore rl s = rl.
Proof.
  assert (D : storage_enabled s <> 1 -> check_storage_inside warning critical rl s = rl).
  { intros H. unfold check_storage_inside.
    destruct (Z.eqb_spec (storage_enabled s) 1); [contradiction|reflexivity]. }
  intros [H | [(Hne & H) | (He & H)]].
  - unfold storage_step.
    destruct (0 <? length include)%nat;
      [destruct (name_in (storage_name s) include)
      |destruct (name_in (storage_name s) ignore)]; cbn [negb]; auto.
  - rewrite storage_step_include by exact Hne. rewrite H. reflexivity.
  - subst include. rewrite storage_step_ignore, H. reflexivity.
Qed.

Lemma check_storage_all_skipped (include ignore : list string)
    (payload : list storage_t) :
  Forall (storage_skipped include ignore) payload ->
  forall rl, check_storage warning critical include ignore rl payload = rl.
Proof.
  unfold check_storage.
  induction 1 as [|s payload Hs _ IH]; intros rl; cbn [fold_left]; [reflexivity|].
  rewrite storage_step_skipped by exact Hs. apply IH.
Qed.

End StorageFilters.

(** C8.  With a non-empty include list the findings of a storage run,
    and so its printed lines and exit status, are the same for any two
    ignore lists.  Each entry's name is looked up in one list only: in
    the include list when that is non-empty, in the ignore list
    otherwise. *)
Theorem include_list_overrides_ignore_list
    (warning critical : Z) (include : list string) :
  (include <> [] ->
   forall ignore1 ignore2 rl payload,
     check_storage warning critical include ignore1 rl payload =
     check_storage warning critical include ignore2 rl payload)
  /\
  (forall o ignore1 ignore2 payload,
     include_disks o <> [] ->
     main (with_ignore_disks o ignore1) (StorageList payload) =
     main (with_ignore_disks o ignore2) (StorageList payload))
  /\
  (forall ignore rl s,
     (include <> [] ->
      storage_step warning critical include ignore rl s =
      if name_in (storage_name s) include
      then check_storage_inside warning critical rl s else rl)
     /\
     (include = [] ->
      storage_step warning critical include ignore rl s =
      if name_in (storage_name s) ignore
      then rl else check_storage_inside warning critical rl s)).
Proof.
  split; [|split].
  - intros Hne ignore1 ignore2 rl payload.
    apply check_storage_ignore_idle, Hne.
  - intros o ignore1 ignore2 payload Hne. unfold main.
    cbn [with_ignore_disks threshold_warning threshold_critical subcommand
         include_disks ignore_disks].
    destruct (threshold_warning o) as [w|], (threshold_critical o) as [c|],
      (subcommand o); try reflexivity.
    rewrite (check_storage_ignore_idle w c (include_disks o) payload Hne
               ignore1 ignore2 []).
    reflexivity.
  - intros ignore rl s. split.
    + apply storage_step_include.
    + intros ->. apply storage_step_ignore.
Qed.

Lemma include_list_overrides_ignore_list_witness :
  ["local"] <> [] /\
  check_storage 70 80 ["local"] ["local"; "vm-backup"] [] two_stores =
  check_storage 70 80 ["local"] [] [] two_stores.
Proof.
  split; [discriminate|].
  refine (proj1 (include_list_overrides_ignore_list 70 80 ["local"]) _
            ["local"; "vm-backup"] [] [] two_stores).
  discriminate.
Defined.

(** The overlap is indeed ignored: the included store is reported. *)
Example include_wins_over_overlapping_ignore :
  check_exitcodes (check_storage 70 80 ["local"] ["local"; "vm-backup"] [] two_stores) =
  {| printed :=
       ["CRITICAL - local disk usage (type: dir) is 80.0 % (7.45 GB / 9.31 GB)."
        ++ blanks 24 ++ "|local=7.45GB;6.52;7.45;0;9.31"];
     exit_code := 2 |}.
Proof. reflexivity. Qed.

(** ** Runs without findings *)

(** C10.  On an empty finding list [check_exitcodes] prints nothing and
    the status is 0; a storage run in which every entry is disabled,
    ignored, or missing from a non-empty include list ends that way. *)
Theorem no_findings_exit_ok :
  check_exitcodes [] = {| printed := []; exit_code := 0 |}
  /\
  forall (o : options) (warning critical : Z) (payload : list storage_t),
    subcommand o = storage ->
    threshold_warning o = Some warning ->
    threshold_critical o = Some critical ->
    Forall (storage_skipped (include_disks o) (ignore_disks o)) payload ->
    check_storage warning critical (include_disks o) (ignore_disks o) [] payload = []
    /\ main o (StorageList payload) = Some {| printed := []; exit_code := 0 |}.
Proof.
  split; [reflexivity|].
  intros o warning critical payload Hs Hw Hc Hall.
  pose proof (check_storage_all_skipped warning critical _ _ payload Hall []) as E.
  split; [exact E|].
  unfold main. rewrite Hw, Hc, Hs, E. reflexivity.
Qed.

Lemma no_findings_exit_ok_witness :
  main (storage_options_ignoring ["vm-backup"]) (StorageList disabled_and_ignored) =
  Some {| printed := []; exit_code := 0 |}.
Proof.
  refine (proj2 (proj2 no_findings_exit_ok (storage_options_ignoring ["vm-backup"])
                   70 80 disabled_and_ignored _ _ _ _)).
  - reflexivity.
  - reflexivity.
  - reflexivity.
  - apply Forall_cons; [left; discriminate|].
    apply Forall_cons; [right; right; split; reflexivity|].
    apply Forall_nil.
Defined.

(** * Further properties *)

(** ** Arguments and requests *)

Lemma needs_thresholds_spec (s : subcommand_t) :
  needs_thresholds s = true <-> In s threshold_subcommands.
Proof.
  unfold threshold_subcommands. destruct s; simpl; split; intros H;
    try reflexivity; try discriminate; try tauto;
    repeat (destruct H as [H|H]; try discriminate H); destruct H.
Qed.

Lemma needs_thresholds_cases (s : subcommand_t) :
  needs_thresholds s = is_ascending s || is_disks_health s.
Proof. destruct s; reflexivity. Qed.

(** X1.  For cpu, disks_health, memory, storage and swap a run without
    [--warning] or without [--critical] ends in the usage error that
    names the subcommand, and no request has been sent. *)
Theorem missing_thresholds_rejected_before_any_request (o : options) (net : network) :
  In (subcommand o) threshold_subcommands ->
  threshold_warning o = None \/ threshold_critical o = None ->
  run o net =
  ([], UsageError ("--warning and --critical arguments are required for '"
                   ++ subcommand_name (subcommand o) ++ "' subcommand!")).
Proof.
  intros Hs Hnone. apply needs_thresholds_spec in Hs.
  unfold run, parse_args. rewrite Hs.
  assert (N : is_None (threshold_warning o) || is_None (threshold_critical o) = true).
  { destruct Hnone as [-> | ->]; [reflexivity|]. apply orb_true_r. }
  rewrite N. reflexivity.
Qed.

Lemma missing_thresholds_rejected_before_any_request_witness :
  run (token_options memory None None)
      (answers (NodeStatus (status_of_cpu 0.5))) =
  ([], UsageError "--warning and --critical arguments are required for 'memory' subcommand!").
Proof.
  refine (missing_thresholds_rejected_before_any_request
            (token_options memory None None)
            (answers (NodeStatus (status_of_cpu 0.5))) _ _).
  - simpl. tauto.
  - left. reflexivity.
Defined.

(** X2.  [parse_args] lets a configuration through exactly when the
    subcommand reads no thresholds (ceph, ceph_io, cluster, pveversion,
    services: whatever was given for them is not looked at), or both
    thresholds are present with [warning < critical] for cpu, memory,
    storage and swap, and [critical < warning] for disks_health. *)
Theorem parse_args_accepts_iff (o : options) :
  parse_args o = Parsed o <->
  ~ In (subcommand o) threshold_subcommands
  \/ exists warning critical,
       threshold_warning o = Some warning /\ threshold_critical o = Some critical /\
       ((In (subcommand o) ascending_subcommands /\ warning < critical)
        \/ (subcommand o = disks_health /\ critical < warning)).
Proof.
  rewrite <- needs_thresholds_spec.
  unfold parse_args, check_thresholds_scale.
  destruct (threshold_warning o) as [w|], (threshold_critical o) as [c|];
    destruct (subcommand o) eqn:S; cbn;
    try (split; [intros _; left; discriminate | reflexivity]);
    try (split; [discriminate | intros [H | (w' & c' & H1 & H2 & _)];
                 [exfalso; apply H; reflexivity | discriminate]]).
  all: try (destruct (Z.ltb_spec w c); cbn;
            [ split; [intros _; right; exists w, c; repeat split; left; split;
                        [unfold ascending_subcommands; simpl; tauto | assumption]
                     | reflexivity]
            | split; [discriminate|];
              intros [H' | (w' & c' & H1 & H2 & [(_ & H3) | (H3 & _)])];
              [ exfalso; apply H'; reflexivity
              | injection H1 as <-; injection H2 as <-; lia
              | discriminate H3 ] ]).
  destruct (Z.ltb_spec c w); cbn.
  - split; [|reflexivity]. intros _. right. exists w, c. repeat split.
    right. split; [reflexivity|assumption].
  - split; [discriminate|].
    intros [H' | (w' & c' & H1 & H2 & [(H3 & _) | (_ & H3)])].
    + exfalso. apply H'. reflexivity.
    + unfold ascending_subcommands in H3. simpl in H3.
      repeat (destruct H3 as [H3|H3]; try discriminate H3). destruct H3.
    + injection H1 as <-. injection H2 as <-. lia.
Qed.




Lemma get_url_ticket (o : options) :
  get_url o "access/ticket" = api_url o "access/ticket".
Proof. reflexivity. Qed.

Lemma get_url_endpoint (o : options) :
  get_url o (subcommand_name (subcommand o)) =
  api_url o (endpoint (nodename o) (subcommand o)).
Proof. destruct (subcommand o); reflexivity. Qed.





(** X5.  A run sends at most two requests, to fixed places: without a
    password nothing but the one GET for the subcommand's endpoint;
    with a password the POST to [access/ticket] first, then at most
    that GET.  Every URL lies under [https://host:port/api2/json/]. *)
Theorem run_requests (o : options) (net : network) :
  match api_password o with
  | None => fst (run o net) = [] \/ fst (run o net) = [data_request o]
  | Some _ =>
      fst (run o net) = [] \/ fst (run o net) = [ticket_request o]
      \/ fst (run o net) = [ticket_request o; data_request o]
  end.
Proof.
  unfold run, ticket_request, data_request.
  destruct (parse_args o) as [message|o'] eqn:P.
  - destruct (api_password o); left; reflexivity.
  - assert (o' = o).
    { unfold parse_args in P.
      repeat match type of P with
             | (if ?b then _ else _) = _ => destruct b; try discriminate P
             end.
      injection P as <-. reflexivity. }
    subst o'. rewrite get_url_ticket, get_url_endpoint.
    destruct (api_password o) as [pw|]; cbn [is_None].
    + destruct (request (ticket_answer net)) as [ticket|out|].
      * right. right. destruct (request (data_answer net)); reflexivity.
      * right. left. reflexivity.
      * right. left. reflexivity.
    + right. destruct (request (data_answer net)); reflexivity.
Qed.

(** ** Substrings *)

Lemma prefix_app (needle : string) : forall a b,
  String.prefix needle a = true -> String.prefix needle (a ++ b) = true.
Proof.
  induction needle as [|c needle IH]; intros a b H;
    [destruct (a ++ b); reflexivity|].
  destruct a as [|d a]; [discriminate H|]. simpl in *.
  destruct (ascii_dec c d); [apply IH, H|discriminate H].
Qed.

Lemma contains_app_l (needle a b : string) :
  Py.contains needle a = true -> Py.contains needle (a ++ b) = true.
Proof.
  induction a as [|c a IH]; intros H.
  - simpl in H. rewrite orb_false_r in H.
    destruct needle; [|discriminate H]. destruct b; reflexivity.
  - cbn [Py.contains] in H. apply orb_true_iff in H as [H|H].
    + change (String c a ++ b) with (String c (a ++ b)).
      pose proof (prefix_app needle (String c a) b H) as P.
      change (String c a ++ b) with (String c (a ++ b)) in P.
      cbn [Py.contains]. rewrite P. reflexivity.
    + change (String c a ++ b) with (String c (a ++ b)).
      cbn [Py.contains]. rewrite (IH H). apply orb_true_r.
Qed.

Lemma contains_app_r (needle a b : string) :
  Py.contains needle b = true -> Py.contains needle (a ++ b) = true.
Proof.
  intros H. induction a as [|c a IH]; [exact H|].
  change (String c a ++ b) with (String c (a ++ b)).
  cbn [Py.contains]. rewrite IH. apply orb_true_r.
Qed.

(** ** The aggregator, line by line *)

Lemma count_occ_filter (p : string -> bool) (l : list string) (x : string) :
  count_occ string_dec (filter p l) x =
  if p x then count_occ string_dec l x else 0%nat.
Proof.
  induction l as [|y l IH]; simpl; [destruct (p x); reflexivity|].
  destruct (p y) eqn:Py; simpl; destruct (string_dec y x) as [->|N].
  - rewrite IH, Py. reflexivity.
  - exact IH.
  - rewrite IH, Py. reflexivity.
  - exact IH.
Qed.

(** X6.  [check_exitcodes] prints a line once for each of the patterns
    CRITICAL, WARNING and [OK -] found anywhere in it: a line matching
    none is never printed, a line matching two is printed twice, and
    nothing is printed that is not in the list. *)
Theorem check_exitcodes_prints_per_marker (result_list : list string) (x : string) :
  count_occ string_dec (printed (check_exitcodes result_list)) x =
  (count_occ string_dec result_list x * markers x)%nat.
Proof.
  rewrite check_exitcodes_printed, !count_occ_app, !count_occ_filter.
  unfold markers.
  destruct (Py.contains "CRITICAL" x), (Py.contains "WARNING" x),
    (Py.contains "OK -" x); lia.
Qed.

(** ** storage, entry by entry *)

Section StorageFindings.

Variables warning critical : Z.

Lemma check_storage_inside_finding (rl : list string) (s : storage_t) :
  check_storage_inside warning critical rl s =
  if storage_enabled s =? 1
  then (rl ++ [storage_finding warning critical s])%list else rl.
Proof.
  unfold check_storage_inside, storage_finding, list_append.
  destruct (storage_enabled s =? 1); [|reflexivity].
  destruct (negb (storage_active s =? 1)); [reflexivity|].
  cbv zeta. set (storage_used_percent := Fl.fl (storage_used_percent_of s)).
  unfold verdict, Py.int_le_float, Py.float_le_int, Py.float_lt_int.
  destruct (Qle_bool (inject_Z critical) storage_used_percent) eqn:C;
    [reflexivity|].
  destruct (Qle_bool (inject_Z warning) storage_used_percent) eqn:W;
    cbn [andb negb]; [|reflexivity].
  assert (L : Qle_bool storage_used_percent (inject_Z critical) = true).
  { apply Qle_bool_iff, Qlt_le_weak, Qnot_le_lt.
    intros H. apply Qle_bool_iff in H. congruence. }
  rewrite L. reflexivity.
Qed.

Lemma storage_step_finding (include ignore rl : list string) (s : storage_t) :
  storage_step warning critical include ignore rl s =
  if storage_selected include ignore s && (storage_enabled s =? 1)
  then (rl ++ [storage_finding warning critical s])%list else rl.
Proof.
  unfold storage_step, storage_selected.
  destruct (0 <? length include)%nat.
  - destruct (name_in (storage_name s) include); cbn [andb];
      [apply check_storage_inside_finding|reflexivity].
  - destruct (name_in (storage_name s) ignore); cbn [andb negb];
      [reflexivity|apply check_storage_inside_finding].
Qed.

Lemma check_storage_fold (include ignore : list string) (payload : list storage_t) :
  forall rl,
    check_storage warning critical include ignore rl payload =
    (rl ++ map (storage_finding warning critical)
             (filter (fun s => storage_selected include ignore s
                               && (storage_enabled s =? 1)) payload))%list.
Proof.
  unfold check_storage.
  induction payload as [|s payload IH]; intros rl; cbn [fold_left filter map].
  - rewrite app_nil_r. reflexivity.
  - rewrite storage_step_finding, IH.
    destruct (storage_selected include ignore s && (storage_enabled s =? 1)).
    + rewrite <- app_assoc. reflexivity.
    + reflexivity.
Qed.

End StorageFindings.

(** X7.  A storage run collects exactly one finding for every entry
    that is enabled and selected by the disk lists, in the order of
    the payload, and none for the others: whatever the thresholds, no
    selected and enabled entry goes unreported. *)
Theorem check_storage_one_finding_each
    (warning critical : Z) (include ignore : list string) (payload : list storage_t) :
  check_storage warning critical include ignore [] payload =
  map (storage_finding warning critical)
      (filter (fun s => storage_selected include ignore s
                        && (storage_enabled s =? 1)) payload).
Proof.
  rewrite check_storage_fold. reflexivity.
Qed.

(** The percentage is a binary64 product: 6999500000 of 10000000000
    bytes is 69.994999999999997 %, printed as 69.99 and below a
    warning threshold of 70. *)
Example storage_percent_in_binary64 :
  check_storage 70 80 [] [] [] [store "local" 1 1 6999500000 10000000000] =
  ["OK - local disk usage (type: dir) is 69.99 % (6.52 GB / 9.31 GB)."
   ++ blanks 24 ++ "|local=6.52GB;6.52;7.45;0;9.31"].
Proof. vm_compute. reflexivity. Qed.

Lemma storage_finding_names (warning critical : Z) (s : storage_t) :
  exists before after,
    storage_finding warning critical s = before ++ storage_name s ++ after.
Proof.
  unfold storage_finding, storage_message.
  destruct (negb (storage_active s =? 1)).
  - exists "WARNING - ", " disk is not active!". reflexivity.
  - destruct (check_UOM (storage_used_byte s)) as [u uu].
    destruct (check_UOM (storage_total_byte s)) as [t tu].
    destruct (get_common_unit (storage_used_byte s) (storage_total_byte s))
      as [[cu ct] cun].
    destruct (verdict warning critical (Fl.fl (storage_used_percent_of s)));
      [exists "OK - " | exists "WARNING - " | exists "CRITICAL - " | exists "UNKNOWN - "];
      eexists; reflexivity.
Qed.

(** X8.  The severity is read off the whole line, so the name of a
    store counts: if an enabled and selected store has CRITICAL in its
    name, the storage run exits with 2 whatever its usage, and with
    WARNING in its name the run does not exit with 0. *)
Theorem storage_name_escalates
    (o : options) (warning critical : Z) (payload : list storage_t) (s : storage_t) :
  subcommand o = storage ->
  threshold_warning o = Some warning ->
  threshold_critical o = Some critical ->
  In s payload ->
  storage_enabled s = 1 ->
  storage_selected (include_disks o) (ignore_disks o) s = true ->
  exists out,
    main o (StorageList payload) = Some out /\
    (Py.contains "CRITICAL" (storage_name s) = true -> exit_code out = 2) /\
    (Py.contains "WARNING" (storage_name s) = true -> exit_code out <> 0).
Proof.
  intros Hs Hw Hc Hin Hen Hsel.
  unfold main. rewrite Hw, Hc, Hs. eexists. split; [reflexivity|].
  rewrite check_storage_fold. cbn [app].
  set (l := map _ _).
  assert (Hl : In (storage_finding warning critical s) l).
  { subst l. apply in_map, filter_In. split; [exact Hin|].
    rewrite Hsel, Hen. reflexivity. }
  destruct (storage_finding_names warning critical s) as (before & after & E).
  assert (M : forall needle, Py.contains needle (storage_name s) = true ->
                             Py.any_contains needle l = true).
  { intros needle H. apply existsb_exists.
    exists (storage_finding warning critical s). split; [exact Hl|].
    rewrite E. apply contains_app_r, contains_app_l, H. }
  unfold check_exitcodes. cbn [exit_code]. split; intros H.
  - rewrite (M _ H). reflexivity.
  - rewrite (M _ H). destruct (Py.any_contains "CRITICAL" l); discriminate.
Qed.

Lemma storage_name_escalates_witness :
  exists out,
    main (token_options storage (Some 70) (Some 80))
         (StorageList [store "CRITICAL-data" 1 1 1073741824 10737418240]) = Some out /\
    (Py.contains "CRITICAL" "CRITICAL-data" = true -> exit_code out = 2) /\
    (Py.contains "WARNING" "CRITICAL-data" = true -> exit_code out <> 0).
Proof.
  refine (storage_name_escalates
            (token_options storage (Some 70) (Some 80)) 70 80
            [store "CRITICAL-data" 1 1 1073741824 10737418240]
            (store "CRITICAL-data" 1 1 1073741824 10737418240) _ _ _ _ _ _).
  - reflexivity.
  - reflexivity.
  - reflexivity.
  - left. reflexivity.
  - reflexivity.
  - reflexivity.
Defined.

Example critical_name_at_ten_percent :
  main (token_options storage (Some 70) (Some 80))
       (StorageList [store "CRITICAL-data" 1 1 1073741824 10737418240]) =
  Some {| printed :=
            ["OK - CRITICAL-data disk usage (type: dir) is 10.0 % (1.0 GB / 10.0 GB)."
             ++ blanks 24 ++ "|CRITICAL-data=1.0GB;7.0;8.0;0;10.0";
             "OK - CRITICAL-data disk usage (type: dir) is 10.0 % (1.0 GB / 10.0 GB)."
             ++ blanks 24 ++ "|CRITICAL-data=1.0GB;7.0;8.0;0;10.0"];
          exit_code := 2 |}.
Proof. reflexivity. Qed.

(** ** cpu, memory and swap: one line, always *)

(** X9.  Whatever the two thresholds, in order or not, the cpu, memory
    and swap evaluators leave through [output]: the run prints exactly
    one line of severity OK, WARNING or CRITICAL and the aggregator is
    not reached. *)
Theorem status_evaluators_always_exit
    (o : options) (warning critical : Z) (s : node_status) :
  threshold_warning o = Some warning ->
  threshold_critical o = Some critical ->
  In (subcommand o) [cpu; memory; swap] ->
  exists state message,
    main o (NodeStatus s) = Some (output state message) /\ state <> UNKNOWN.
Proof.
  intros Hw Hc Hs. unfold main. rewrite Hw, Hc.
  assert (V : forall v, verdict warning critical v <> UNKNOWN).
  { intros v. unfold verdict.
    destruct (Qle_bool (inject_Z critical) v); [discriminate|].
    destruct (Qle_bool (inject_Z warning) v); discriminate. }
  destruct Hs as [<- | [<- | [<- | []]]].
  - unfold check_cpu. rewrite three_way_verdict. eauto.
  - unfold check_memory. rewrite three_way_verdict. eauto.
  - unfold check_swap, check_memory. rewrite three_way_verdict. eauto.
Qed.

Lemma status_evaluators_always_exit_witness :
  exists state message,
    main (token_options swap (Some 90) (Some 50))
         (NodeStatus {| st_cpu := JFloat 0.5;
                        st_memory := {| used := 1; total := 2 |};
                        st_swap := {| used := 0; total := 0 |} |})
    = Some (output state message) /\ state <> UNKNOWN.
Proof.
  refine (status_evaluators_always_exit
            (token_options swap (Some 90) (Some 50)) 90 50 _ _ _ _).
  - reflexivity.
  - reflexivity.
  - simpl. tauto.
Defined.

(** ** services: the two outcomes *)

Lemma to_set_In (l : list string) (x : string) : In x (to_set l) <-> In x l.
Proof. unfold to_set. apply nodup_In. Qed.

Lemma services_no_faulty (payload : list service) :
  (forall e, In e payload -> ~ service_faulty e) ->
  filter service_is_faulty payload = [].
Proof.
  intros H. apply filter_none. apply not_true_is_false. intros E.
  apply existsb_exists in E as (e & He & Hf).
  apply (H e He), service_is_faulty_spec, Hf.
Qed.

(** X10.  A services run over at least one record, in which every
    record is running and active or has unit-state [not-found], prints
    the one line [OK - All services are running.] and exits with 0. *)
Theorem services_all_running (payload : list service) :
  payload <> [] ->
  (forall e, In e payload -> ~ service_faulty e) ->
  check_exitcodes (check_services [] payload) =
  {| printed := ["OK - All services are running."]; exit_code := 0 |}.
Proof.
  intros Hne Hall. unfold check_services.
  change (@nil string) with (repeat services_ok_message 0).
  rewrite services_fold_clean, (services_no_faulty payload Hall).
  destruct payload as [|e payload]; [congruence|].
  cbn [length Nat.add]. rewrite to_set_repeat. reflexivity.
Qed.

Lemma services_all_running_witness :
  check_exitcodes
    (check_services []
       [service_of "pveproxy" "running" "active";
        {| service_name := "syslog"; service_desc := "System Logging Service";
           service_unit_state := "not-found"; service_state := "dead";
           service_active_state := "inactive" |}]) =
  {| printed := ["OK - All services are running."]; exit_code := 0 |}.
Proof.
  refine (services_all_running _ _ _).
  - discriminate.
  - intros e [<- | [<- | []]] (H1 & H2).
    + destruct H1 as [H1|H1]; apply H1; reflexivity.
    + apply H2. reflexivity.
Defined.

(** X11.  As soon as one record of the payload is faulty (not running
    or not active, unit-state other than [not-found]), the services
    run does not exit with 0, the WARNING line of every faulty record
    is printed, and the OK line is not. *)
Theorem services_faulty_reported (payload : list service) (e : service) :
  In e payload -> service_faulty e ->
  exit_code (check_exitcodes (check_services [] payload)) <> 0
  /\ (forall e', In e' payload -> service_faulty e' ->
      In (service_warning_message e')
         (printed (check_exitcodes (check_services [] payload))))
  /\ ~ In services_ok_message (printed (check_exitcodes (check_services [] payload))).
Proof.
  intros He Hf.
  assert (F : In e (filter service_is_faulty payload))
    by (apply filter_In; split; [exact He|apply service_is_faulty_spec, Hf]).
  assert (E : check_services [] payload =
              to_set (map service_warning_message (filter service_is_faulty payload))).
  { unfold check_services. change (@nil string) with (repeat services_ok_message 0).
    rewrite services_fold_clean.
    destruct (filter service_is_faulty payload); [destruct F|reflexivity]. }
  rewrite E. set (l := to_set _).
  assert (Hl : forall e', In e' payload -> service_faulty e' ->
                          In (service_warning_message e') l).
  { intros e' He' Hf'. subst l. apply to_set_In, in_map, filter_In.
    split; [exact He'|apply service_is_faulty_spec, Hf']. }
  split; [|split].
  - unfold check_exitcodes. cbn [exit_code].
    assert (W : Py.any_contains "WARNING" l = true).
    { apply existsb_exists. exists (service_warning_message e).
      split; [apply Hl; assumption|reflexivity]. }
    rewrite W. destruct (Py.any_contains "CRITICAL" l); discriminate.
  - intros e' He' Hf'. rewrite check_exitcodes_printed, !in_app_iff, !filter_In.
    right. left. split; [apply Hl; assumption|reflexivity].
  - rewrite check_exitcodes_printed, !in_app_iff, !filter_In.
    intros [(H & _) | [(H & _) | (H & _)]];
      subst l; apply to_set_In, in_map_iff in H as (e' & H & _); discriminate H.
Qed.

Lemma services_faulty_reported_witness :
  exit_code (check_exitcodes
               (check_services []
                  [service_of "pveproxy" "running" "active";
                   service_of "pvedaemon" "dead" "failed"])) <> 0.
Proof.
  refine (proj1 (services_faulty_reported
                   [service_of "pveproxy" "running" "active";
                    service_of "pvedaemon" "dead" "failed"]
                   (service_of "pvedaemon" "dead" "failed") _ _)).
  - right. left. reflexivity.
  - split; [left|]; discriminate.
Defined.

(** ** disks_health: what the filter leaves *)

Lemma prefix_weaken (n1 n2 : string) : forall hay,
  String.prefix (n1 ++ n2) hay = true -> String.prefix n1 hay = true.
Proof.
  induction n1 as [|c n1 IH]; intros hay H; [destruct hay; reflexivity|].
  destruct hay as [|d hay]; [discriminate H|]. simpl in *.
  destruct (ascii_dec c d); [apply IH, H|discriminate H].
Qed.

Lemma contains_weaken (n1 n2 hay : string) :
  Py.contains (n1 ++ n2) hay = true -> Py.contains n1 hay = true.
Proof.
  induction hay as [|c hay IH]; cbn [Py.contains]; intros H.
  - rewrite orb_false_r in *. apply (prefix_weaken n1 n2), H.
  - apply orb_true_iff in H as [H|H].
    + rewrite (prefix_weaken n1 n2 _ H). reflexivity.
    + rewrite (IH H). apply orb_true_r.
Qed.

Lemma any_contains_false (needle : string) (l : list string) (x : string) :
  Py.any_contains needle l = false -> In x l -> Py.contains needle x = false.
Proof.
  intros A Hin. apply not_true_is_false. intros C.
  assert (Py.any_contains needle l = true)
    by (apply existsb_exists; exists x; auto).
  congruence.
Qed.

(** After any step of the loop, a line that holds WARNING also holds
    [CRITICAL -]. *)
Lemma disks_health_step_marks (warning critical : Z) (rl : list string) (d : disk)
    (x : string) :
  In x (disks_health_step warning critical rl d) ->
  Py.contains "WARNING" x = true -> Py.contains "CRITICAL -" x = true.
Proof.
  unfold disks_health_step. set (appended := if health_is_bad _ then _ else _).
  destruct (Py.any_contains "WARNING" appended) eqn:A; intros Hin W.
  - apply filter_In in Hin as (_ & Hb). apply andb_true_iff in Hb. tauto.
  - rewrite (any_contains_false _ _ _ A Hin) in W. discriminate W.
Qed.

Lemma disks_health_fold_marks (warning critical : Z) (payload : list disk) :
  forall rl x,
    (forall y, In y rl -> Py.contains "WARNING" y = true ->
               Py.contains "CRITICAL -" y = true) ->
    In x (fold_left (disks_health_step warning critical) payload rl) ->
    Py.contains "WARNING" x = true -> Py.contains "CRITICAL -" x = true.
Proof.
  induction payload as [|d payload IH]; intros rl x Hrl; cbn [fold_left].
  - apply Hrl.
  - apply IH. intros y. apply disks_health_step_marks.
Qed.

(** X13.  A disks_health run never exits with status 1: every line
    that survives the loop's filter and holds WARNING also holds
    [CRITICAL -], so the run ends with 0 or with 2. *)
Theorem disks_health_never_exits_warning (warning critical : Z) (payload : list disk) :
  exit_code (check_exitcodes (check_disks_health warning critical [] payload)) <> 1.
Proof.
  unfold check_exitcodes. cbn [exit_code].
  destruct (Py.any_contains "CRITICAL" _) eqn:C; [discriminate|].
  destruct (Py.any_contains "WARNING" _) eqn:W; [|discriminate].
  exfalso. apply existsb_exists in W as (x & Hin & Hw).
  assert (K : Py.contains "CRITICAL -" x = true).
  { pose proof (proj1 (to_set_In _ _) Hin) as Hin'.
    apply (disks_health_fold_marks warning critical payload [] x);
      [intros y []|exact Hin'|exact Hw]. }
  apply (contains_weaken "CRITICAL" " -") in K.
  rewrite (any_contains_false _ _ _ C Hin) in K. discriminate K.
Qed.

Section DisksOutcomes.

Variables warning critical : Z.
Hypothesis thresholds_descending : critical < warning.

Local Abbreviation step := (disks_health_step warning critical).
Local Abbreviation both :=
  (fun x => Py.contains "WARNING -" x && Py.contains "CRITICAL -" x).

Lemma filter_both_repeat_ok (n : nat) :
  filter both (repeat disks_ok_message n) = [].
Proof.
  induction n as [|n IH]; [reflexivity|]. cbn [repeat filter].
  change (Py.contains "WARNING -" disks_ok_message) with false. exact IH.
Qed.

Lemma disk_warning_line_marked (d : disk) :
  Py.contains "WARNING" (disk_warning_line d) = true.
Proof.
  unfold disk_warning_line.
  destruct (health_is_bad (health d)); [reflexivity|].
  destruct (wearout d); reflexivity.
Qed.

Lemma disks_health_step_appends_warning (rl : list string) (d : disk) :
  disk_warned warning critical d ->
  disks_health_step warning critical rl d =
  filter both (rl ++ [disk_warning_line d]).
Proof.
  intros Hw. unfold disks_health_step, disk_warning_line, list_append.
  assert (A : forall line, line = disk_warning_line d ->
                Py.any_contains "WARNING" (rl ++ [line]) = true).
  { intros line ->. unfold Py.any_contains. rewrite existsb_app. cbn [existsb].
    rewrite disk_warning_line_marked. rewrite orb_true_r. reflexivity. }
  unfold disk_warning_line in A.
  destruct (health_is_bad (health d)) eqn:B.
  - rewrite (A _ eq_refl). reflexivity.
  - destruct Hw as [Hw | (n & Hn & Hlo & Hhi)]; [congruence|].
    rewrite Hn in *.
    destruct (Z.leb_spec n warning); [|lia].
    rewrite Z.geb_leb. destruct (Z.leb_spec critical n); [|lia].
    cbn [andb]. rewrite (A _ eq_refl). reflexivity.
Qed.

(** On a list of OK lines the warned disk leaves nothing behind. *)
Lemma disks_health_step_masks (n : nat) (d : disk) :
  disk_warned warning critical d ->
  Py.contains "CRITICAL -" (disk_warning_line d) = false ->
  step (repeat disks_ok_message n) d = [].
Proof.
  intros Hw Hc. rewrite disks_health_step_appends_warning by exact Hw.
  rewrite filter_app, filter_both_repeat_ok. cbn [filter app].
  rewrite Hc, andb_false_r. reflexivity.
Qed.

Lemma disks_fold_masked (payload : list disk) :
  Forall (fun d => disk_healthy warning d
                   \/ (disk_warned warning critical d
                       /\ Py.contains "CRITICAL -" (disk_warning_line d) = false))
         payload ->
  forall n, exists k,
    fold_left step payload (repeat disks_ok_message n) = repeat disks_ok_message k.
Proof.
  induction 1 as [|d payload Hd _ IH]; intros n; cbn [fold_left].
  - exists n. reflexivity.
  - destruct Hd as [Hh | (Hw & Hc)].
    + rewrite (disks_health_step_healthy warning critical thresholds_descending n d Hh).
      apply IH.
    + rewrite (disks_health_step_masks n d Hw Hc). apply (IH 0%nat).
Qed.

(** Without a WARNING in the list, a disk that draws none appends its
    line and nothing is filtered. *)
Lemma disks_health_step_unwarned (rl : list string) (d : disk) :
  Py.any_contains "WARNING" rl = false ->
  disk_unwarned warning critical d ->
  Py.contains "WARNING" (disk_report_line critical d) = false ->
  step rl d = (rl ++ [disk_report_line critical d])%list
  /\ Py.any_contains "WARNING" (rl ++ [disk_report_line critical d]) = false.
Proof.
  intros Hrl (Hh & Hw) Hline.
  assert (A : Py.any_contains "WARNING" (rl ++ [disk_report_line critical d]) = false).
  { unfold Py.any_contains in *. rewrite existsb_app, Hrl. cbn [existsb].
    rewrite Hline. reflexivity. }
  split; [|exact A].
  unfold disks_health_step, disks_baseline, list_append. rewrite Hh.
  unfold disk_report_line in *.
  destruct (wearout d) as [n|s].
  - rewrite Z.geb_leb. destruct Hw as [Hlo | Hhi].
    + destruct (Z.leb_spec critical n); [lia|]. rewrite andb_false_r.
      destruct (Z.leb_spec n critical); [|lia]. rewrite A. reflexivity.
    + destruct (Z.leb_spec n warning); [lia|]. cbn [andb].
      destruct (Z.leb_spec n critical); [lia|].
      rewrite Hrl. cbn [negb orb]. rewrite A. reflexivity.
  - rewrite Hrl. cbn [negb orb]. rewrite A. reflexivity.
Qed.

Lemma disks_fold_unwarned (payload : list disk) :
  Forall (fun d => disk_unwarned warning critical d
                   /\ Py.contains "WARNING" (disk_report_line critical d) = false)
         payload ->
  forall rl, Py.any_contains "WARNING" rl = false ->
    fold_left step payload rl = (rl ++ map (disk_report_line critical) payload)%list.
Proof.
  induction 1 as [|d payload (Hd & Hl) _ IH]; intros rl Hrl; cbn [fold_left map].
  - rewrite app_nil_r. reflexivity.
  - destruct (disks_health_step_unwarned rl d Hrl Hd Hl) as (E & A).
    rewrite E, (IH _ A), <- app_assoc. reflexivity.
Qed.

End DisksOutcomes.

(** X14.  With thresholds [critical < warning], if every disk of the
    payload is either healthy or draws a WARNING (bad health, or a
    wearout between the two thresholds) whose line does not itself
    hold [CRITICAL -], then no WARNING is ever reported: the run exits
    with 0, printing the OK line or nothing at all. *)
Theorem disks_health_warnings_masked
    (warning critical : Z) (payload : list disk) :
  critical < warning ->
  Forall (fun d => disk_healthy warning d
                   \/ (disk_warned warning critical d
                       /\ Py.contains "CRITICAL -" (disk_warning_line d) = false))
         payload ->
  check_exitcodes (check_disks_health warning critical [] payload) =
    {| printed := []; exit_code := 0 |}
  \/ check_exitcodes (check_disks_health warning critical [] payload) =
    {| printed := ["OK - All disks are healthy."]; exit_code := 0 |}.
Proof.
  intros Hwc Hall. unfold check_disks_health.
  change (@nil string) with (repeat disks_ok_message 0).
  destruct (disks_fold_masked warning critical Hwc payload Hall 0%nat) as (k & ->).
  destruct k as [|k]; [left; reflexivity|right].
  rewrite to_set_repeat. reflexivity.
Qed.

Lemma disks_health_warnings_masked_witness :
  check_exitcodes (check_disks_health 20 10 [] [passed_disk; ageing_disk; failed_disk]) =
    {| printed := []; exit_code := 0 |}
  \/ check_exitcodes (check_disks_health 20 10 [] [passed_disk; ageing_disk; failed_disk]) =
    {| printed := ["OK - All disks are healthy."]; exit_code := 0 |}.
Proof.
  refine (disks_health_warnings_masked 20 10 _ _ _).
  - lia.
  - apply Forall_cons; [left; split; [reflexivity|exact I]|].
    apply Forall_cons.
    { right. split; [|reflexivity]. right. exists 15. split; [reflexivity|lia]. }
    apply Forall_cons; [right; split; [left|]; reflexivity|].
    apply Forall_nil.
Defined.

(** X15.  With thresholds [critical < warning], in a payload where no
    disk draws a WARNING and no line holds the word WARNING, every
    disk in good health whose wearout is below the critical threshold
    is reported with its CRITICAL line, and the run exits with 2. *)
Theorem disks_health_worn_out_reported
    (warning critical : Z) (payload : list disk) (d : disk) (n : Z) :
  critical < warning ->
  Forall (fun d => disk_unwarned warning critical d
                   /\ Py.contains "WARNING" (disk_report_line critical d) = false)
         payload ->
  In d payload -> wearout d = WearInt n -> n < critical ->
  In (disk_wearout_message "CRITICAL" d n)
     (printed (check_exitcodes (check_disks_health warning critical [] payload)))
  /\ exit_code (check_exitcodes (check_disks_health warning critical [] payload)) = 2.
Proof.
  intros Hwc Hall Hin Hn Hlt. unfold check_disks_health.
  rewrite (disks_fold_unwarned warning critical Hwc payload Hall [] eq_refl).
  cbn [app]. set (l := to_set _).
  assert (Hl : In (disk_wearout_message "CRITICAL" d n) l).
  { subst l. apply to_set_In, in_map_iff. exists d. split; [|exact Hin].
    unfold disk_report_line. rewrite Hn.
    destruct (Z.leb_spec n critical); [reflexivity|lia]. }
  assert (C : Py.contains "CRITICAL" (disk_wearout_message "CRITICAL" d n) = true)
    by reflexivity.
  split.
  - rewrite check_exitcodes_printed, !in_app_iff, !filter_In. left. auto.
  - unfold check_exitcodes. cbn [exit_code].
    assert (A : Py.any_contains "CRITICAL" l = true)
      by (apply existsb_exists; eauto).
    rewrite A. reflexivity.
Qed.

Lemma disks_health_worn_out_reported_witness :
  In "CRITICAL - ATA - Samsung SSD 860 type: ssd on /dev/sdc has low wearout: 4"
     (printed (check_exitcodes (check_disks_health 20 10 [] [passed_disk; worn_disk])))
  /\ exit_code (check_exitcodes (check_disks_health 20 10 [] [passed_disk; worn_disk])) = 2.
Proof.
  refine (disks_health_worn_out_reported 20 10 [passed_disk; worn_disk] worn_disk 4
            _ _ _ _ _).
  - lia.
  - apply Forall_cons; [split; [split; [reflexivity|exact I]|reflexivity]|].
    apply Forall_cons; [split; [split; [reflexivity|left; simpl; lia]|reflexivity]|].
    apply Forall_nil.
  - right. left. reflexivity.
  - reflexivity.
  - lia.
Defined.

(** ** cluster: the dictionary of nodes *)

Section Dict.

Context {V : Type}.

Lemma dict_get_set (d : list (string * V)) (k k' : string) (v : V) :
  dict_get (dict_set d k v) k' =
  if String.eqb k k' then Some v else dict_get d k'.
Proof.
  induction d as [|[k0 v0] d IH]; simpl.
  - reflexivity.
  - destruct (String.eqb_spec k0 k) as [->|N]; simpl.
    + destruct (String.eqb k k'); reflexivity.
    + rewrite IH. destruct (String.eqb_spec k0 k') as [->|N'];
        [|reflexivity].
      destruct (String.eqb_spec k k'); [congruence|reflexivity].
Qed.

Lemma dict_set_keys (d : list (string * V)) (k k' : string) (v : V) :
  In k' (map fst (dict_set d k v)) <-> k' = k \/ In k' (map fst d).
Proof.
  induction d as [|[k0 v0] d IH]; simpl.
  - intuition.
  - destruct (String.eqb_spec k0 k) as [->|N]; simpl; [intuition|].
    rewrite IH. intuition.
Qed.

Lemma dict_set_NoDup (d : list (string * V)) (k : string) (v : V) :
  NoDup (map fst d) -> NoDup (map fst (dict_set d k v)).
Proof.
  induction d as [|[k0 v0] d IH]; simpl; intros H.
  - constructor; [intros []|constructor].
  - inversion H as [|? ? Hn Hd]; subst.
    destruct (String.eqb_spec k0 k) as [->|N]; simpl.
    + constructor; assumption.
    + constructor; [|apply IH, Hd].
      rewrite dict_set_keys. intros [E|I]; [congruence|contradiction].
Qed.

Lemma dict_get_In (d : list (string * V)) (k : string) (v : V) :
  NoDup (map fst d) -> (In (k, v) d <-> dict_get d k = Some v).
Proof.
  induction d as [|[k0 v0] d IH]; simpl; intros H.
  - split; [intros []|discriminate].
  - inversion H as [|? ? Hn Hd]; subst.
    destruct (String.eqb_spec k0 k) as [->|N].
    + split.
      * intros [E|I]; [congruence|].
        exfalso. apply Hn. change k with (fst (k, v)). apply in_map, I.
      * intros E. left. congruence.
    + rewrite <- (IH Hd). split; [intros [E|I]; [congruence|exact I]|auto].
Qed.

Lemma NoDup_keys_filter (p : string * V -> bool) (d : list (string * V)) :
  NoDup (map fst d) -> NoDup (map fst (filter p d)).
Proof.
  induction d as [|kv d IH]; simpl; intros H; [constructor|].
  inversion H as [|? ? Hn Hd]; subst.
  destruct (p kv); simpl; [|apply IH, Hd].
  constructor; [|apply IH, Hd].
  intros I. apply Hn. apply in_map_iff in I as (kv' & E & I).
  apply filter_In in I as (I & _). rewrite <- E. apply in_map, I.
Qed.

End Dict.

Lemma last_entry_cons (n : cluster_node) (nodelist : list cluster_node) (k : string) :
  last_entry (n :: nodelist) k =
  match last_entry nodelist k with
  | Some m => Some m
  | None => if String.eqb (node_name n) k then Some n else None
  end.
Proof.
  unfold last_entry. cbn [rev].
  induction (rev nodelist) as [|m l IH]; simpl; [reflexivity|].
  destruct (String.eqb (node_name m) k); [reflexivity|exact IH].
Qed.

Lemma node_details_step_record (d : list (string * (string * string)))
    (n : cluster_node) :
  (if node_online n =? 1
   then dict_set d (node_name n) ("online", node_ip n)
   else dict_set d (node_name n) ("offline", node_ip n))
  = dict_set d (node_name n) (node_record n).
Proof. unfold node_record. destruct (node_online n =? 1); reflexivity. Qed.

Lemma node_details_fold (nodelist : list cluster_node) :
  forall d0 : list (string * (string * string)),
    NoDup (map fst d0) ->
    NoDup (map fst
             (fold_left
                (fun node_details_dict node =>
                   if node_online node =? 1
                   then dict_set node_details_dict (node_name node)
                                 ("online", node_ip node)
                   else dict_set node_details_dict (node_name node)
                                 ("offline", node_ip node))
                nodelist d0))
    /\
    forall k,
      dict_get
        (fold_left
           (fun node_details_dict node =>
              if node_online node =? 1
              then dict_set node_details_dict (node_name node)
                            ("online", node_ip node)
              else dict_set node_details_dict (node_name node)
                            ("offline", node_ip node))
           nodelist d0) k =
      match last_entry nodelist k with
      | Some n => Some (node_record n)
      | None => dict_get d0 k
      end.
Proof.
  induction nodelist as [|n nodelist IH]; intros d0 H0; cbn [fold_left].
  - split; [exact H0|reflexivity].
  - rewrite node_details_step_record.
    destruct (IH _ (dict_set_NoDup d0 (node_name n) (node_record n) H0)) as (N & G).
    split; [exact N|]. intros k. rewrite G, last_entry_cons.
    destruct (last_entry nodelist k); [reflexivity|].
    rewrite dict_get_set. destruct (String.eqb (node_name n) k); reflexivity.
Qed.

Lemma offline_nodes_spec (nodelist : list cluster_node) :
  NoDup (offline_nodes (node_details nodelist))
  /\ forall k, In k (offline_nodes (node_details nodelist)) <->
               exists n, last_entry nodelist k = Some n /\ node_online n <> 1.
Proof.
  destruct (node_details_fold nodelist [] (NoDup_nil _)) as (N & G).
  fold (node_details nodelist) in N, G.
  split; [apply NoDup_keys_filter, N|].
  intros k. unfold offline_nodes. rewrite in_map_iff. split.
  - intros ([k' v] & E & I). simpl in E. subst k'.
    apply filter_In in I as (I & P). cbn [fst snd] in P.
    apply (dict_get_In _ _ _ N) in I. rewrite G in I.
    destruct (last_entry nodelist k) as [n|]; [|discriminate I].
    exists n. split; [reflexivity|]. injection I as <-.
    unfold node_record in P. cbn [fst] in P.
    destruct (Z.eqb_spec (node_online n) 1); [discriminate P|assumption].
  - intros (n & L & O). exists (k, node_record n). split; [reflexivity|].
    apply filter_In. split.
    + apply (dict_get_In _ _ _ N). rewrite G, L. reflexivity.
    + unfold node_record. cbn [fst snd].
      destruct (Z.eqb_spec (node_online n) 1); [contradiction|reflexivity].
Qed.

(** X17.  The offline nodes [check_cluster] lists are the names whose
    last entry in the payload is not online, each name once: a name
    that occurs twice is judged by its later entry alone. *)
Theorem cluster_offline_nodes (nodelist : list cluster_node) :
  NoDup (offline_nodes (node_details nodelist))
  /\ forall k, In k (offline_nodes (node_details nodelist)) <->
               exists n, last_entry nodelist k = Some n /\ node_online n <> 1.
Proof. apply offline_nodes_spec. Qed.

Example cluster_later_entry_wins :
  offline_nodes (node_details [node "pve1" 0; node "pve2" 0; node "pve1" 1; node "pve2" 0])
  = ["pve2"].
Proof. reflexivity. Qed.

(** X18.  The status of a cluster run: 2 exactly when [quorate] is a
    number other than 1, whatever the nodes are; 0 exactly when
    [quorate] is 1 and the last entry of every node name is online;
    1 otherwise, which includes a [quorate] of null. *)
Theorem check_cluster_status (summary : cluster_summary) (nodelist : list cluster_node) :
  (exit_code (check_cluster summary nodelist) = 2
   <-> exists q, quorate summary = Some q /\ q <> 1)
  /\ (exit_code (check_cluster summary nodelist) = 0
      <-> quorate summary = Some 1
          /\ forall k n, last_entry nodelist k = Some n -> node_online n = 1)
  /\ (exit_code (check_cluster summary nodelist) = 0
      \/ exit_code (check_cluster summary nodelist) = 1
      \/ exit_code (check_cluster summary nodelist) = 2).
Proof.
  destruct (offline_nodes_spec nodelist) as (_ & S).
  unfold check_cluster.
  destruct (quorate summary) as [q|]; cbn [exit_code output state_value].
  2:{ split; [|split].
      - split; [discriminate|intros (q & E & _); discriminate E].
      - split; [discriminate|intros (E & _); discriminate E].
      - right. left. reflexivity. }
  destruct (Z.eqb_spec q 1) as [->|Nq].
  2:{ cbn [exit_code output state_value]. split; [|split].
      - split; [intros _; exists q; auto|reflexivity].
      - split; [discriminate|intros (E & _); congruence].
      - right. right. reflexivity. }
  destruct (offline_nodes (node_details nodelist)) as [|k0 l] eqn:O;
    cbn [length Nat.ltb Nat.leb exit_code output state_value].
  - split; [|split].
    + split; [discriminate|intros (q & E & N); congruence].
    + split; [|reflexivity]. intros _. split; [reflexivity|].
      intros k n L. destruct (Z.eq_dec (node_online n) 1) as [E|N]; [exact E|].
      exfalso. apply (proj2 (S k)). exists n. auto.
    + left. reflexivity.
  - split; [|split].
    + split; [discriminate|intros (q & E & N); congruence].
    + split; [discriminate|]. intros (_ & A). exfalso.
      destruct (proj1 (S k0) (or_introl eq_refl)) as (n & L & N).
      apply N, (A k0 n L).
    + right. left. reflexivity.
Qed.

(** ** pveversion: the fields of the version string *)

Lemma split_slash_free (s : string) :
  slash_free s -> Py.split "/"%char s = [s].
Proof.
  unfold slash_free. induction s as [|c s IH]; [reflexivity|].
  cbn [Py.has_char Py.split]. intros H. apply orb_false_iff in H as (Hc & Hs).
  rewrite Ascii.eqb_sym, Hc, (IH Hs). reflexivity.
Qed.

Lemma split_field (a rest : string) :
  slash_free a ->
  Py.split "/"%char (a ++ String "/"%char rest) = a :: Py.split "/"%char rest.
Proof.
  unfold slash_free. induction a as [|c a IH]; [reflexivity|].
  cbn [Py.has_char]. intros H. apply orb_false_iff in H as (Hc & Hs).
  change (String c a ++ String "/"%char rest)
    with (String c (a ++ String "/"%char rest)).
  cbn [Py.split]. rewrite Ascii.eqb_sym, Hc, (IH Hs). reflexivity.
Qed.

(** X19.  [check_pveversion] reports the first two fields of the
    version string, separated by slashes and whatever follows them; a
    version string without any slash does not give a finding but ends
    the run in an [IndexError]. *)
Theorem check_pveversion_fields :
  (forall s, slash_free s -> check_pveversion s = None)
  /\ (forall a b, slash_free a -> slash_free b ->
      check_pveversion (a ++ "/" ++ b) = Some (output OK (a ++ "/" ++ b)))
  /\ (forall a b rest, slash_free a -> slash_free b ->
      check_pveversion (a ++ "/" ++ b ++ "/" ++ rest) =
      Some (output OK (a ++ "/" ++ b))).
Proof.
  unfold check_pveversion. split; [|split].
  - intros s H. rewrite (split_slash_free s H). reflexivity.
  - intros a b Ha Hb.
    change (a ++ "/" ++ b) with (a ++ String "/"%char b).
    rewrite (split_field a b Ha), (split_slash_free b Hb). reflexivity.
  - intros a b rest Ha Hb.
    change (a ++ "/" ++ b ++ "/" ++ rest)
      with (a ++ String "/"%char (b ++ String "/"%char rest)).
    rewrite (split_field a _ Ha), (split_field b rest Hb).
    destruct (Py.split "/"%char rest); reflexivity.
Qed.

Lemma check_pveversion_fields_witness :
  check_pveversion "pve-manager/7.2-3/c743d6c1" =
    Some {| printed := ["OK - pve-manager/7.2-3"]; exit_code := 0 |}
  /\ check_pveversion "unknown" = None.
Proof.
  split.
  - refine (proj2 (proj2 check_pveversion_fields) "pve-manager" "7.2-3" "c743d6c1" _ _);
      reflexivity.
  - refine (proj1 check_pveversion_fields "unknown" _). reflexivity.
Defined.

(** ** ceph_io: numbers cannot spell a severity *)

Lemma all_numeric_app (a b : string) :
  all_numeric (a ++ b) = all_numeric a && all_numeric b.
Proof.
  induction a as [|c a IH]; [reflexivity|].
  change (String c a ++ b) with (String c (a ++ b)).
  cbn [all_numeric]. rewrite IH, andb_assoc. reflexivity.
Qed.

Lemma digit_char_numeric (d : Z) :
  0 <= d < 10 -> numeric_char (Py.digit_char d) = true.
Proof.
  intros H.
  assert (D : d = 0 \/ d = 1 \/ d = 2 \/ d = 3 \/ d = 4 \/ d = 5 \/ d = 6
              \/ d = 7 \/ d = 8 \/ d = 9) by lia.
  repeat (destruct D as [->|D]; [reflexivity|]). subst d. reflexivity.
Qed.

Lemma digits_fuel_numeric (fuel : nat) : forall n acc,
  all_numeric acc = true -> all_numeric (Py.digits_fuel fuel n acc) = true.
Proof.
  induction fuel as [|f IH]; intros n acc H; [exact H|]. cbn [Py.digits_fuel].
  assert (A : all_numeric (String (Py.digit_char (n mod 10)) acc) = true).
  { cbn [all_numeric]. rewrite H, digit_char_numeric; [reflexivity|].
    apply Z.mod_pos_bound. lia. }
  destruct (n <? 10); [exact A|apply IH, A].
Qed.

Lemma str_int_numeric (n : Z) : all_numeric (Py.str_int n) = true.
Proof.
  unfold Py.str_int, Py.str_nonneg. destruct (n <? 0).
  - rewrite all_numeric_app, digits_fuel_numeric; reflexivity.
  - apply digits_fuel_numeric. reflexivity.
Qed.

Lemma str_float_numeric (x : Q) : all_numeric (Py.str_float x) = true.
Proof.
  unfold Py.str_float.
  set (h := Qfloor (x * 100)). set (a := Z.abs h). set (frac := a mod 100).
  assert (F : 0 <= frac < 100) by (apply Z.mod_pos_bound; lia).
  rewrite !all_numeric_app, str_int_numeric. cbn [all_numeric].
  rewrite digit_char_numeric
    by (split; [apply Z.div_pos; lia|apply Z.div_lt_upper_bound; lia]).
  assert (S : all_numeric (if h <? 0 then "-" else "") = true)
    by (destruct (h <? 0); reflexivity).
  rewrite S.
  destruct (frac mod 10 =? 0); cbn [all_numeric andb];
    [reflexivity|].
  rewrite digit_char_numeric by (apply Z.mod_pos_bound; lia). reflexivity.
Qed.

(** A pattern that starts with a letter is not found any earlier for a
    number put in front. *)
Lemma contains_skip_number (c : ascii) (needle num rest : string) :
  numeric_char c = false -> all_numeric num = true ->
  Py.contains (String c needle) (num ++ rest) = Py.contains (String c needle) rest.
Proof.
  intros Hc. induction num as [|d num IH]; [reflexivity|].
  cbn [all_numeric]. intros H. apply andb_true_iff in H as (Hd & Hn).
  change (String d num ++ rest) with (String d (num ++ rest)).
  cbn [Py.contains String.prefix].
  destruct (ascii_dec c d) as [->|_]; [congruence|].
  cbn [orb]. apply IH, Hn.
Qed.

Ltac skip_numbers :=
  repeat (cbn [Py.contains String.prefix String.append orb blanks repeat
               string_of_list_ascii];
          repeat match goal with
                 | |- context [if ascii_dec ?a ?b then _ else _] =>
                     let r := eval vm_compute in (ascii_dec a b) in
                     change (ascii_dec a b) with r; cbv iota
                 end;
          rewrite ?contains_skip_number by (assumption || reflexivity)).

Lemma ceph_ops_text_unmarked (t r w : string) :
  all_numeric t = true -> all_numeric r = true -> all_numeric w = true ->
  Py.contains "CRITICAL" (ceph_ops_text t r w) = false
  /\ Py.contains "WARNING" (ceph_ops_text t r w) = false
  /\ Py.contains "OK -" (ceph_ops_text t r w) = false.
Proof.
  intros Ht Hr Hw. unfold ceph_ops_text.
  repeat split; skip_numbers; reflexivity.
Qed.

Lemma ceph_bytes_text_unmarked (t r w : string) :
  all_numeric t = true -> all_numeric r = true -> all_numeric w = true ->
  Py.contains "CRITICAL" (ceph_bytes_text t r w) = false
  /\ Py.contains "WARNING" (ceph_bytes_text t r w) = false
  /\ Py.contains "OK -" (ceph_bytes_text t r w) = false.
Proof.
  intros Ht Hr Hw. unfold ceph_bytes_text.
  repeat split; skip_numbers; reflexivity.
Qed.

(** What the severity in front adds to a text that spells none. *)
Lemma prefixed_markers (text : string) :
  Py.contains "CRITICAL" text = false ->
  Py.contains "WARNING" text = false ->
  Py.contains "OK -" text = false ->
  (Py.contains "CRITICAL" ("WARNING - " ++ text) = false
   /\ Py.contains "WARNING" ("WARNING - " ++ text) = true
   /\ Py.contains "OK -" ("WARNING - " ++ text) = false)
  /\ (Py.contains "CRITICAL" ("OK - " ++ text) = false
      /\ Py.contains "WARNING" ("OK - " ++ text) = false
      /\ Py.contains "OK -" ("OK - " ++ text) = true).
Proof.
  intros C W O. repeat split; skip_numbers; try reflexivity; assumption.
Qed.

Lemma ceph_ops_message_text (threshold read_op write_op : Z) :
  ceph_ops_message threshold read_op write_op =
  ceph_ops_text (Py.str_int threshold) (Py.str_int read_op) (Py.str_int write_op).
Proof. reflexivity. Qed.

Lemma ceph_bytes_message_text (threshold : Z) (read_bytes write_bytes : Q) :
  ceph_bytes_message threshold read_bytes write_bytes =
  ceph_bytes_text (Py.str_int threshold) (Py.str_float read_bytes)
                  (Py.str_float write_bytes).
Proof. reflexivity. Qed.

(** X20.  A ceph_io run prints its two findings, the WARNING ones
    before the OK ones, and its status is 1 when a read or write rate
    reaches its threshold (operations per second as given, MB per
    second after rounding to two decimals) and 0 otherwise: whatever
    the numbers, the run is never CRITICAL and no line is printed
    twice. *)
Theorem check_ceph_io_outcome (io_warning byte_warning : Z) (pgmap : pgmap_t) :
  let read_bytes := Py.round (Py.int_div (read_bytes_sec pgmap) 1048576) 2 in
  let write_bytes := Py.round (Py.int_div (write_bytes_sec pgmap) 1048576) 2 in
  let ops := ceph_ops_message io_warning (read_op_per_sec pgmap)
                              (write_op_per_sec pgmap) in
  let bytes := ceph_bytes_message byte_warning read_bytes write_bytes in
  let ops_high := (io_warning <=? read_op_per_sec pgmap)
                  || (io_warning <=? write_op_per_sec pgmap) in
  let bytes_high := Qle_bool (inject_Z byte_warning) read_bytes
                    || Qle_bool (inject_Z byte_warning) write_bytes in
  check_exitcodes (check_ceph_io io_warning byte_warning [] pgmap) =
  {| printed :=
       ((if ops_high then [("WARNING - " ++ ops)%string] else [])
        ++ (if bytes_high then [("WARNING - " ++ bytes)%string] else [])
        ++ (if ops_high then [] else [("OK - " ++ ops)%string])
        ++ (if bytes_high then [] else [("OK - " ++ bytes)%string]))%list;
     exit_code := if ops_high || bytes_high then 1 else 0 |}.
Proof.
  intros read_bytes write_bytes ops bytes ops_high bytes_high.
  destruct (ceph_ops_text_unmarked _ _ _
              (str_int_numeric io_warning)
              (str_int_numeric (read_op_per_sec pgmap))
              (str_int_numeric (write_op_per_sec pgmap))) as (C1 & W1 & O1).
  rewrite <- ceph_ops_message_text in C1, W1, O1. fold ops in C1, W1, O1.
  destruct (ceph_bytes_text_unmarked _ _ _
              (str_int_numeric byte_warning)
              (str_float_numeric read_bytes)
              (str_float_numeric write_bytes)) as (C2 & W2 & O2).
  rewrite <- ceph_bytes_message_text in C2, W2, O2. fold bytes in C2, W2, O2.
  destruct (prefixed_markers ops C1 W1 O1) as ((A1 & A2 & A3) & (A4 & A5 & A6)).
  destruct (prefixed_markers bytes C2 W2 O2) as ((B1 & B2 & B3) & (B4 & B5 & B6)).
  unfold check_ceph_io, Py.int_le_float.
  fold read_bytes write_bytes ops bytes ops_high bytes_high.
  unfold check_exitcodes, Py.any_contains, list_append.
  destruct ops_high, bytes_high; cbn [app existsb filter];
    rewrite ?A1, ?A2, ?A3, ?A4, ?A5, ?A6, ?B1, ?B2, ?B3, ?B4, ?B5, ?B6;
    reflexivity.
Qed.

Example ceph_io_busy_reads :
  check_exitcodes
    (check_ceph_io 10000 200 []
       {| read_bytes_sec := 314572800; write_bytes_sec := 1048576;
          read_op_per_sec := 120; write_op_per_sec := 45 |}) =
  {| printed :=
       ["WARNING - CEPH IO byte usage is 300.0 MB read / 1.0 MB write per seconds."
        ++ blanks 8 ++ "|'ceph byte read per sec'=300.0;200;;0; "
        ++ "'ceph byte write per sec'=1.0;200;;0;";
        "OK - CEPH IO operation usage is 120 ops read / 45 ops write per seconds."
        ++ blanks 8 ++ "|'ceph io read per sec'=120;10000;;0; "
        ++ "'ceph io write per sec'=45;10000;;0;"];
     exit_code := 1 |}.
Proof. reflexivity. Qed.

(** ** Rounding keeps the order *)

Lemma round_half_even_mono (x y : Q) :
  (x <= y)%Q -> Fl.nearest_even x <= Fl.nearest_even y.
Proof.
  intros Hxy. unfold Fl.nearest_even.
  pose proof (Qfloor_resp_le x y Hxy) as Hf.
  destruct (Z.eq_dec (Qfloor x) (Qfloor y)) as [E|N].
  - rewrite <- E.
    destruct (Qcompare (x - inject_Z (Qfloor x)) (1 # 2)) eqn:Cx;
      destruct (Qcompare (y - inject_Z (Qfloor x)) (1 # 2)) eqn:Cy;
      try (destruct (Z.even (Qfloor x)); lia);
      first [apply Qeq_alt in Cx | apply Qlt_alt in Cx | apply Qgt_alt in Cx];
      first [apply Qeq_alt in Cy | apply Qlt_alt in Cy | apply Qgt_alt in Cy];
      exfalso; lra.
  - assert (Qfloor x + 1 <= Qfloor y) by lia.
    destruct (Qcompare (x - inject_Z (Qfloor x)) (1 # 2));
      destruct (Qcompare (y - inject_Z (Qfloor y)) (1 # 2));
      try destruct (Z.even (Qfloor x)); try destruct (Z.even (Qfloor y)); lia.
Qed.

Lemma Qmake_le (a b : Z) (p : positive) : a <= b -> (a # p <= b # p)%Q.
Proof.
  intros H. unfold Qle. cbn [Qnum Qden]. apply Z.mul_le_mono_nonneg_r; lia.
Qed.

Lemma round_mono (x y : Q) (ndigits : nat) :
  (x <= y)%Q -> (Py.round x ndigits <= Py.round y ndigits)%Q.
Proof.
  intros H. unfold Py.round. rewrite !Qred_correct.
  apply Qmake_le, round_half_even_mono.
  apply Qmult_le_compat_r; [exact H|].
  change 0%Q with (inject_Z 0). rewrite <- Zle_Qle.
  apply Z.pow_nonneg. lia.
Qed.

Lemma round_half_even_Z (z : Z) : Fl.nearest_even (inject_Z z) = z.
Proof.
  unfold Fl.nearest_even. rewrite Qfloor_Z.
  assert (C : Qcompare (inject_Z z - inject_Z z) (1 # 2) = Lt)
    by (apply Qlt_alt; unfold Qminus; rewrite Qplus_opp_r; reflexivity).
  rewrite C. reflexivity.
Qed.

(** An integer is a fixed point of [round]. *)
Lemma round_Z (z : Z) (ndigits : nat) : (Py.round (inject_Z z) ndigits == inject_Z z)%Q.
Proof.
  unfold Py.round. rewrite Qred_correct.
  rewrite (round_half_even_comp _ (inject_Z (z * 10 ^ Z.of_nat ndigits)))
    by (rewrite inject_Z_mult; reflexivity).
  rewrite round_half_even_Z.
  assert (P : 0 < 10 ^ Z.of_nat ndigits) by (apply Z.pow_pos_nonneg; lia).
  unfold Qeq, inject_Z. cbn [Qnum Qden]. rewrite Z2Pos.id by exact P. lia.
Qed.

Lemma pow2_pos (e : Z) : (0 < Fl.pow2 e)%Q.
Proof. apply Qpower_0_lt. reflexivity. Qed.

Lemma pow2_plus (a b : Z) : (Fl.pow2 (a + b) == Fl.pow2 a * Fl.pow2 b)%Q.
Proof. apply Qpower_plus. discriminate. Qed.

Lemma pow2_le (a b : Z) : a <= b -> (Fl.pow2 a <= Fl.pow2 b)%Q.
Proof. intros H. apply Qpower_le_compat_l; [exact H|discriminate]. Qed.

Lemma pow2_lt (a b : Z) : a < b -> (Fl.pow2 a < Fl.pow2 b)%Q.
Proof. intros H. apply Qpower_lt_compat_l; [exact H|reflexivity]. Qed.

Lemma pow2_Z (n : Z) : 0 <= n -> (Fl.pow2 n == inject_Z (2 ^ n))%Q.
Proof. intros H. unfold Fl.pow2. rewrite (Zpower_Qpower 2 n H). reflexivity. Qed.

Lemma Q_as_quotient (q : Q) : (q * inject_Z (Zpos (Qden q)) == inject_Z (Qnum q))%Q.
Proof.
  destruct q as [a b]. unfold Qeq, Qmult, inject_Z. cbn [Qnum Qden].
  rewrite Pos.mul_1_r, !Z.mul_1_r. reflexivity.
Qed.

Lemma Qnum_pos (q : Q) : (0 < q)%Q -> 0 < Qnum q.
Proof. destruct q as [a b]. unfold Qlt. simpl. lia. Qed.

Lemma ilog2_spec (q : Q) :
  (0 < q)%Q -> (Fl.pow2 (Fl.ilog2 q) <= q)%Q /\ (q < Fl.pow2 (Fl.ilog2 q + 1))%Q.
Proof.
  intros Hq. pose proof (Qnum_pos q Hq) as Ha.
  pose proof (Q_as_quotient q) as E.
  set (a := Qnum q) in *. set (b := Zpos (Qden q)) in *.
  assert (Hb : 0 < b) by (subst b; lia).
  destruct (Z.log2_spec a Ha) as (La & Ua).
  destruct (Z.log2_spec b Hb) as (Lb & Ub).
  pose proof (Z.log2_nonneg a) as Na. pose proof (Z.log2_nonneg b) as Nb.
  set (la := Z.log2 a) in *. set (lb := Z.log2 b) in *.
  assert (QLa : (Fl.pow2 la <= inject_Z a)%Q)
    by (rewrite pow2_Z by lia; rewrite <- Zle_Qle; exact La).
  assert (QUa : (inject_Z a < Fl.pow2 (la + 1))%Q).
  { rewrite pow2_Z by lia. rewrite <- Zlt_Qlt.
    replace (la + 1) with (Z.succ la) by lia. exact Ua. }
  assert (QLb : (Fl.pow2 lb <= inject_Z b)%Q)
    by (rewrite pow2_Z by lia; rewrite <- Zle_Qle; exact Lb).
  assert (QUb : (inject_Z b < Fl.pow2 (lb + 1))%Q).
  { rewrite pow2_Z by lia. rewrite <- Zlt_Qlt.
    replace (lb + 1) with (Z.succ lb) by lia. exact Ub. }
  assert (QB : (0 < inject_Z b)%Q) by (change 0%Q with (inject_Z 0); rewrite <- Zlt_Qlt; exact Hb).
    assert (Lo : (Fl.pow2 (la - lb - 1) <= q)%Q).
  { apply (Qmult_le_r _ _ (inject_Z b) QB). rewrite E.
    apply Qle_trans with (Fl.pow2 (la - lb - 1) * Fl.pow2 (lb + 1))%Q.
    - apply Qmult_le_l; [apply pow2_pos|apply Qlt_le_weak, QUb].
    - rewrite <- pow2_plus. replace (la - lb - 1 + (lb + 1)) with la by lia. exact QLa. }
  assert (Hi : (q < Fl.pow2 (la - lb + 1))%Q).
  { apply (Qmult_lt_r _ _ (inject_Z b) QB). rewrite E.
    apply Qlt_le_trans with (Fl.pow2 (la - lb + 1) * Fl.pow2 lb)%Q.
    - rewrite <- pow2_plus. replace (la - lb + 1 + lb) with (la + 1) by lia. exact QUa.
    - apply Qmult_le_l; [apply pow2_pos|exact QLb]. }
  unfold Fl.ilog2. fold a b la lb.
  destruct (Qle_bool (Fl.pow2 (la - lb)) q) eqn:C.
  - apply Qle_bool_iff in C. split; assumption.
  - assert (C' : (q < Fl.pow2 (la - lb))%Q).
    { apply Qnot_le_lt. intros H. apply Qle_bool_iff in H. congruence. }
    split; [exact Lo|]. replace (la - lb - 1 + 1) with (la - lb) by lia. exact C'.
Qed.

Lemma scale_spec (q : Q) :
  (0 < q)%Q ->
  (q < Fl.pow2 (Fl.scale q + 53))%Q /\ (Fl.scale q = -1074 \/ (Fl.pow2 (Fl.scale q + 52) <= q)%Q).
Proof.
  intros Hq. destruct (ilog2_spec q Hq) as (L & U). unfold Fl.scale.
  destruct (Z.max_spec (-1074) (Fl.ilog2 q - 52)) as [(H & ->) | (H & ->)].
  - split.
    + replace (Fl.ilog2 q - 52 + 53) with (Fl.ilog2 q + 1) by lia. exact U.
    + right. replace (Fl.ilog2 q - 52 + 52) with (Fl.ilog2 q) by lia. exact L.
  - split; [|left; reflexivity].
    apply Qlt_le_trans with (Fl.pow2 (Fl.ilog2 q + 1)); [exact U|].
    apply pow2_le. lia.
Qed.

Lemma scale_mono (x y : Q) : (0 < x)%Q -> (x <= y)%Q -> Fl.scale x <= Fl.scale y.
Proof.
  intros Hx Hxy.
  assert (Hy : (0 < y)%Q) by (apply Qlt_le_trans with x; assumption).
  destruct (scale_spec x Hx) as (Ux & Lx). destruct (scale_spec y Hy) as (Uy & Ly).
  pose proof (Z.le_max_l (-1074) (Fl.ilog2 y - 52)) as My. fold (Fl.scale y) in My.
  destruct Lx as [-> | Lx]; [exact My|].
  destruct (Z_le_gt_dec (Fl.scale x) (Fl.scale y)) as [H|H]; [exact H|exfalso].
  assert (P : (Fl.pow2 (Fl.scale y + 53) <= Fl.pow2 (Fl.scale x + 52))%Q) by (apply pow2_le; lia).
  apply (Qlt_irrefl y).
  apply Qlt_le_trans with (Fl.pow2 (Fl.scale y + 53)); [exact Uy|].
  apply Qle_trans with (Fl.pow2 (Fl.scale x + 52)); [exact P|].
  apply Qle_trans with x; assumption.
Qed.

(** The mantissa of a positive number lies between 0 and [2^53], and
    from [2^52] on above the subnormal range. *)
Lemma mantissa_bounds (q : Q) :
  (0 < q)%Q ->
  0 <= Fl.nearest_even (q / Fl.pow2 (Fl.scale q)) <= 2 ^ 53
  /\ (Fl.scale q <> -1074 -> 2 ^ 52 <= Fl.nearest_even (q / Fl.pow2 (Fl.scale q))).
Proof.
  intros Hq. destruct (scale_spec q Hq) as (U & L).
  pose proof (pow2_pos (Fl.scale q)) as P.
  assert (U' : (q / Fl.pow2 (Fl.scale q) <= inject_Z (2 ^ 53))%Q).
  { apply Qle_shift_div_r; [exact P|]. rewrite <- (pow2_Z 53) by lia.
    rewrite <- pow2_plus. rewrite Z.add_comm. apply Qlt_le_weak, U. }
  assert (Z' : (inject_Z 0 <= q / Fl.pow2 (Fl.scale q))%Q).
  { apply Qle_shift_div_l; [exact P|]. rewrite Qmult_0_l. apply Qlt_le_weak, Hq. }
  repeat split.
  - rewrite <- (round_half_even_Z 0). apply round_half_even_mono, Z'.
  - rewrite <- (round_half_even_Z (2 ^ 53)). apply round_half_even_mono, U'.
  - intros N. destruct L as [L|L]; [contradiction|].
    rewrite <- (round_half_even_Z (2 ^ 52)). apply round_half_even_mono.
    apply Qle_shift_div_l; [exact P|]. rewrite <- (pow2_Z 52) by lia.
    rewrite <- pow2_plus. rewrite Z.add_comm. exact L.
Qed.

Lemma fl_pos_mono (x y : Q) :
  (0 < x)%Q -> (x <= y)%Q -> (Fl.fl_pos x <= Fl.fl_pos y)%Q.
Proof.
  intros Hx Hxy.
  assert (Hy : (0 < y)%Q) by (apply Qlt_le_trans with x; assumption).
  unfold Fl.fl_pos. rewrite !Qred_correct.
  pose proof (scale_mono x y Hx Hxy) as S.
  destruct (Z.eq_dec (Fl.scale x) (Fl.scale y)) as [E|N].
  - rewrite E. apply Qmult_le_compat_r; [|apply Qlt_le_weak, pow2_pos].
    rewrite <- Zle_Qle. apply round_half_even_mono.
    apply Qmult_le_compat_r; [exact Hxy|].
    apply Qlt_le_weak, Qinv_lt_0_compat, pow2_pos.
  - destruct (mantissa_bounds x Hx) as ((_ & Ux) & _).
    destruct (mantissa_bounds y Hy) as (_ & Ly).
    assert (Ny : Fl.scale y <> -1074).
    { pose proof (Z.le_max_l (-1074) (Fl.ilog2 x - 52)) as M. fold (Fl.scale x) in M. lia. }
    specialize (Ly Ny).
    apply Qle_trans with (inject_Z (2 ^ 53) * Fl.pow2 (Fl.scale x))%Q.
    + apply Qmult_le_compat_r; [|apply Qlt_le_weak, pow2_pos].
      rewrite <- Zle_Qle. exact Ux.
    + apply Qle_trans with (inject_Z (2 ^ 52) * Fl.pow2 (Fl.scale y))%Q.
      * rewrite <- !pow2_Z by lia. rewrite <- !pow2_plus. apply pow2_le. lia.
      * apply Qmult_le_compat_r; [|apply Qlt_le_weak, pow2_pos].
        rewrite <- Zle_Qle. exact Ly.
Qed.

Lemma fl_pos_nonneg (q : Q) : (0 < q)%Q -> (0 <= Fl.fl_pos q)%Q.
Proof.
  intros Hq. unfold Fl.fl_pos. rewrite Qred_correct.
  destruct (mantissa_bounds q Hq) as ((L & _) & _).
  apply Qmult_le_0_compat; [|apply Qlt_le_weak, pow2_pos].
  change 0%Q with (inject_Z 0). rewrite <- Zle_Qle. exact L.
Qed.

Lemma fl_mono (x y : Q) : (x <= y)%Q -> (Fl.fl x <= Fl.fl y)%Q.
Proof.
  intros Hxy. unfold Fl.fl.
  destruct (Qcompare x 0) eqn:Cx; destruct (Qcompare y 0) eqn:Cy;
    first [apply Qeq_alt in Cx | apply Qlt_alt in Cx | apply Qgt_alt in Cx];
    first [apply Qeq_alt in Cy | apply Qlt_alt in Cy | apply Qgt_alt in Cy];
    try (exfalso; lra).
  - apply Qle_refl.
  - apply fl_pos_nonneg, Cy.
  - rewrite Qred_correct. pose proof (fl_pos_nonneg (- x) ltac:(lra)). lra.
  - rewrite !Qred_correct.
    pose proof (fl_pos_mono (- y) (- x) ltac:(lra) ltac:(lra)). lra.
  - rewrite Qred_correct. pose proof (fl_pos_nonneg (- x) ltac:(lra)).
    pose proof (fl_pos_nonneg y Cy). lra.
  - apply fl_pos_mono; assumption.
Qed.

Lemma fl_0 : Fl.fl 0 = 0%Q.
Proof. reflexivity. Qed.

Lemma fl_1 : Fl.fl 1 = 1%Q.
Proof. vm_compute. reflexivity. Qed.

Lemma fl_100 : Fl.fl 100 = 100%Q.
Proof. vm_compute. reflexivity. Qed.

Lemma int_div_mono (a b d : Z) :
  0 < d -> a <= b -> (Py.int_div a d <= Py.int_div b d)%Q.
Proof.
  intros Hd Hab. unfold Py.int_div. apply fl_mono.
  apply Qmult_le_compat_r.
  - rewrite <- Zle_Qle. exact Hab.
  - apply Qinv_le_0_compat. change 0%Q with (inject_Z 0).
    rewrite <- Zle_Qle. lia.
Qed.

Lemma int_div_0 (d : Z) : Py.int_div 0 d = 0%Q.
Proof.
  unfold Py.int_div, Fl.fl.
  assert (E : (inject_Z 0 / inject_Z d ?= 0)%Q = Eq).
  { apply Qeq_alt. unfold Qdiv. apply Qmult_0_l. }
  rewrite E. reflexivity.
Qed.

Lemma unit_exponent_cases (digits : Z) :
  unit_exponent digits = 2 \/ unit_exponent digits = 3 \/ unit_exponent digits = 4.
Proof.
  unfold unit_exponent.
  destruct (digits <? 10); [auto|]. destruct (digits <=? 12); auto.
Qed.

Lemma get_common_unit_scaled (used_number total_number : Z) :
  get_common_unit used_number total_number =
  (scaled used_number (unit_exponent (digit_count total_number)),
   scaled total_number (unit_exponent (digit_count total_number)),
   unit_label (unit_exponent (digit_count total_number))).
Proof.
  unfold get_common_unit, scaled, unit_exponent. fold (digit_count total_number).
  destruct (Z.ltb_spec (digit_count total_number) 10) as [H10|H10].
  - reflexivity.
  - destruct (Z.leb_spec (digit_count total_number) 12) as [H12|H12].
    + destruct (Z.leb_spec 10 (digit_count total_number)); [|lia]. reflexivity.
    + destruct (Z.leb_spec 13 (digit_count total_number)); [|lia].
      destruct (Z.leb_spec 10 (digit_count total_number)); [|lia]. reflexivity.
Qed.

(** X21.  For byte counts with [0 <= used <= total], the two numbers
    [get_common_unit] returns keep that order, [0 <= used' <= total']:
    rounding in the common unit never shows more used than there is
    in total. *)
Theorem get_common_unit_keeps_order (used_number total_number : Z) :
  0 <= used_number <= total_number ->
  (0 <= fst (fst (get_common_unit used_number total_number)))%Q
  /\ (fst (fst (get_common_unit used_number total_number))
      <= snd (fst (get_common_unit used_number total_number)))%Q.
Proof.
  intros (H0 & Hle). rewrite get_common_unit_scaled. cbn [fst snd].
  unfold scaled.
  assert (P : 0 < 1024 ^ unit_exponent (digit_count total_number)).
  { destruct (unit_exponent_cases (digit_count total_number)) as [-> | [-> | ->]];
      reflexivity. }
  split.
  - apply Qle_trans with (Py.round (inject_Z 0) 2).
    + rewrite round_Z. apply Qle_refl.
    + apply round_mono. change (inject_Z 0) with 0%Q.
      rewrite <- (int_div_0 (1024 ^ unit_exponent (digit_count total_number))).
      apply int_div_mono; assumption.
  - apply round_mono, int_div_mono; assumption.
Qed.

Lemma get_common_unit_keeps_order_witness :
  (0 <= fst (fst (get_common_unit 8000000000 10000000000)))%Q
  /\ (fst (fst (get_common_unit 8000000000 10000000000))
      <= snd (fst (get_common_unit 8000000000 10000000000)))%Q.
Proof.
  refine (get_common_unit_keeps_order 8000000000 10000000000 _). lia.
Defined.

(** X22.  For a store with [0 <= used <= total] and a total that is
    not 0, the percentage [check_storage] compares with the thresholds
    lies between 0 and 100. *)
Theorem storage_percent_in_range (s : storage_t) :
  0 <= storage_used_byte s <= storage_total_byte s ->
  storage_total_byte s <> 0 ->
  (0 <= storage_used_percent_of s <= 100)%Q.
Proof.
  intros (H0 & Hle) Hne. unfold storage_used_percent_of.
  destruct (Z.eqb_spec (storage_total_byte s) 0) as [E|_]; [contradiction|].
  assert (Ht : 0 < storage_total_byte s) by lia.
  unfold Fl.mul, Py.int_div.
  set (ratio := (inject_Z (storage_used_byte s) / inject_Z (storage_total_byte s))%Q).
  assert (Pt : (0 < inject_Z (storage_total_byte s))%Q)
    by (change 0%Q with (inject_Z 0); rewrite <- Zlt_Qlt; exact Ht).
  assert (L : (0 <= ratio)%Q).
  { apply Qle_shift_div_l; [exact Pt|]. rewrite Qmult_0_l.
    change 0%Q with (inject_Z 0). rewrite <- Zle_Qle. exact H0. }
  assert (U : (ratio <= 1)%Q).
  { apply Qle_shift_div_r; [exact Pt|]. rewrite Qmult_1_l.
    rewrite <- Zle_Qle. exact Hle. }
  pose proof (fl_mono _ _ L) as L1. rewrite fl_0 in L1.
  pose proof (fl_mono _ _ U) as U1. rewrite fl_1 in U1.
  set (r := Fl.fl ratio) in *. clearbody r.
  assert (L2 : (0 <= r * 100)%Q) by lra.
  assert (U2 : (r * 100 <= 100)%Q) by lra.
  apply fl_mono in L2. rewrite fl_0 in L2.
  apply fl_mono in U2. rewrite fl_100 in U2.
  split.
  - apply Qle_trans with (Py.round (inject_Z 0) 2).
    + rewrite round_Z. apply Qle_refl.
    + apply round_mono. exact L2.
  - apply Qle_trans with (Py.round (inject_Z 100) 2).
    + apply round_mono. exact U2.
    + rewrite round_Z. apply Qle_refl.
Qed.

Lemma storage_percent_in_range_witness :
  (0 <= storage_used_percent_of (store "local" 1 1 8000000000 10000000000) <= 100)%Q.
Proof.
  refine (storage_percent_in_range (store "local" 1 1 8000000000 10000000000) _ _).
  - simpl. lia.
  - discriminate.
Defined.



(** ** memory and swap: totals that round to nothing *)

Lemma round_GB_small (n : Z) :
  0 <= n <= 53687091 -> Py.round (Py.int_div n (1024 ^ 3)) 1 = 0%Q.
Proof.
  intros (H0 & H1).
  assert (E : (Py.round (Py.int_div n (1024 ^ 3)) 1 == 0)%Q).
  { apply Qle_antisym.
    - apply Qle_trans with (Py.round (Py.int_div 53687091 (1024 ^ 3)) 1).
      + apply round_mono, int_div_mono; [reflexivity|exact H1].
      + vm_compute. discriminate.
    - apply Qle_trans with (Py.round (Py.int_div 0 (1024 ^ 3)) 1).
      + vm_compute. discriminate.
      + apply round_mono, int_div_mono; [reflexivity|exact H0]. }
  unfold Py.round in *. rewrite Qred_correct in E.
  rewrite (Qred_complete _ _ E). reflexivity.
Qed.

Lemma memory_percent_0_0 : memory_percent 0 0 = 0%Q.
Proof. vm_compute. reflexivity. Qed.

Lemma positive_threshold_above_zero (t : Z) :
  0 < t -> Qle_bool (inject_Z t) 0 = false.
Proof.
  intros H. apply not_true_is_false. intros L.
  apply Qle_bool_iff in L. change 0%Q with (inject_Z 0) in L.
  rewrite <- Zle_Qle in L. lia.
Qed.

(** X24.  When the total is at most 53687091 bytes, it rounds to
    0.0 GB and so does whatever is used of it: with positive
    thresholds the memory or swap finding is then OK at 0.0 %, even if
    the total is fully used. *)
Theorem tiny_total_reports_ok
    (warning critical : Z) (sub : used_total) (subcommand_s : string) :
  0 < warning -> 0 < critical ->
  0 <= used sub <= total sub -> total sub <= 53687091 ->
  check_memory warning critical sub subcommand_s =
  Some (output OK (memory_message warning critical subcommand_s 0 0 0)).
Proof.
  intros Hw Hc (H0 & Hle) Ht. unfold check_memory.
  rewrite (round_GB_small (used sub)) by lia.
  rewrite (round_GB_small (total sub)) by lia.
  rewrite memory_percent_0_0, fl_0.
  rewrite three_way_verdict. unfold verdict.
  rewrite !positive_threshold_above_zero by assumption. reflexivity.
Qed.

Lemma tiny_total_reports_ok_witness :
  check_memory 80 90 {| used := 50000000; total := 50000000 |} "swap" =
  Some {| printed :=
            ["OK - swap usage is 0.0 % (0.0 GB / 0.0 GB)!"
             ++ blanks 16 ++ "|usage=0.0GB;0.0;0.0;0;0.0"];
          exit_code := 0 |}.
Proof.
  refine (tiny_total_reports_ok 80 90 {| used := 50000000; total := 50000000 |}
            "swap" _ _ _ _).
  - lia.
  - lia.
  - simpl. lia.
  - simpl. lia.
Defined.
